(** * agent-graph-jira: the story pipeline, its prompt builder and its clients

    A shallow embedding of the Python sources

      - [src/core/prompts/story_expansion.py]   (module [Prompt])
      - [src/infrastructure/llm_clients/openai_client.py] (module [LLM])
      - [src/core/tools/jira_client.py]         (module [Jira])
      - [src/core/agent/jira_agent.py]          (module [Agent])

    Conventions of the embedding.

      - A story of the YAML configuration is a Python dict read with
        [dict.get(key, default)].  It is embedded as a record of optional,
        typed fields: [None] is "the key is absent", [Some v] is "the key
        is present with value v" (so [Some []] is a present, empty list).
        Values of another type than the data model gives the key are
        outside the embedding.
      - The payload handed to the tracker is a dict that the client
        inspects dynamically ([in], [isinstance]); it is a
        [gmap string PyVal].
      - A Python exception is a value of [Exn]; a call that may raise
        returns a [Result].
      - The two remote services are oracles, indexed by the number of
        calls made to the service so far; every call is recorded in the
        trace of the [World].
      - Calls to the logger are left out.
      - The graph engine that [_build_graph] hands its nodes and edges to is
        a library outside the sources.  The embedding has the nodes, the
        functions given to them and the edges as the source wires them, and
        it states facts about the wiring and about the node functions; it
        does not say how, or whether, the library runs the graph. *)

From stdpp Require Import gmap strings list fin_maps.
From Stdlib Require Import String Ascii ZArith.

Set Warnings "-register-all".
Open Scope string_scope.

(** ** Python values, truth values and exceptions *)

Module Py.

Inductive PyVal :=
| PNone
| PBool (b : bool)
| PStr (s : string)
| PList (l : list PyVal)
| PDict (d : gmap string PyVal).

(** [bool(v)]: what [if v:] tests. *)
Definition truthy (v : PyVal) : bool :=
  match v with
  | PNone => false
  | PBool b => b
  | PStr s => negb (String.eqb s "")
  | PList l => match l with [] => false | _ => true end
  | PDict d => negb (bool_decide (d = ∅))
  end.

(** Truth value of a [str]. *)
Definition str_truthy (s : string) : bool := negb (String.eqb s "").

(** Truth value of an [Optional[str]]. *)
Definition opt_str_truthy (o : option string) : bool :=
  match o with
  | None => false
  | Some s => str_truthy s
  end.

(** Truth value of a list. *)
Definition list_truthy {A} (l : list A) : bool :=
  match l with
  | [] => false
  | _ => true
  end.

(** [a or b] on strings. *)
Definition str_or (a b : string) : string := if str_truthy a then a else b.

(** [sep.join(l)] for a list of strings. *)
Fixpoint join (sep : string) (l : list string) : string :=
  match l with
  | [] => ""
  | [x] => x
  | x :: rest => x ++ sep ++ join sep rest
  end.

(** An exception: its class and [str(e)]. *)
Record Exn := mkExn { exn_class : string; exn_msg : string }.

Definition ValueError (msg : string) : Exn := mkExn "ValueError" msg.
Definition KeyError (key : string) : Exn := mkExn "KeyError" ("'" ++ key ++ "'").
Definition AttributeError (msg : string) : Exn := mkExn "AttributeError" msg.

Inductive Result (A : Type) :=
| Ok (a : A)
| Raise (e : Exn).
Arguments Ok {A} a.
Arguments Raise {A} e.

Definition is_ok {A} (r : Result A) : bool :=
  match r with
  | Ok _ => true
  | Raise _ => false
  end.

Definition bind {A B} (r : Result A) (k : A → Result B) : Result B :=
  match r with
  | Ok a => k a
  | Raise e => Raise e
  end.

(** [s] occurs in [t]: Python's [s in t]. *)
Definition occurs_in (s t : string) : Prop := ∃ pre post, t = pre ++ s ++ post.

End Py.
Export Py.

Notation "x ←! r ; k" := (bind r (λ x, k))
  (at level 100, r at next level, right associativity, only parsing).

(** ** The configuration: stories and global defaults *)

(** One entry of [config["stories"]]. *)
Record StoryOutline := mkStory {
  s_title : option string;
  s_description : option string;
  s_priority : option string;
  s_labels : option (list string);
  s_components : option (list string);
  s_project : option string;
  s_issue_type : option string;
  s_epic : option string
}.

(** [config["global"]]. *)
Record GlobalDefaults := mkGlobal {
  g_project : option string;
  g_labels : option (list string);
  g_components : option (list string);
  g_epic : option string
}.

(** The dict [{}]. *)
Definition empty_story : StoryOutline :=
  mkStory None None None None None None None None.
Definition empty_global : GlobalDefaults := mkGlobal None None None None.

(** A dict is false when it has no key at all. *)
Definition story_truthy (s : StoryOutline) : bool :=
  match s with
  | mkStory None None None None None None None None => false
  | _ => true
  end.

Definition opt_story_truthy (o : option StoryOutline) : bool :=
  match o with
  | None => false
  | Some s => story_truthy s
  end.

(** The loaded YAML file: both top-level keys are optional. *)
Record Config := mkConfig {
  cfg_global : option GlobalDefaults;
  cfg_stories : option (list StoryOutline)
}.

(** ** Prompt builder ([story_expansion.py]) *)

Module Prompt.

Definition nl : string := String "010"%char "".
Definition dquote : string := String "034"%char "".

(** The lines of the literal [StoryExpansionPrompt.base_prompt], after
    [.strip()].  The first line ends in a blank. *)
Definition base_lines : list string :=
  [
    "You are an expert product manager and technical writer specializing in creating detailed, ";
    "actionable user stories for software development teams.";
    "";
    "Your task is to expand the given story outline into a comprehensive JIRA story that includes:";
    "";
    "1. **Clear User Story**: A well-structured user story following the " ++ dquote
      ++ "As a [user], I want [goal] so that [benefit]" ++ dquote ++ " format";
    "2. **Detailed Description**: Comprehensive explanation of the feature/requirement";
    "3. **Acceptance Criteria**: Specific, testable criteria that define when the story is complete";
    "4. **Technical Considerations**: Any technical notes or considerations for implementation";
    "5. **Definition of Done**: Clear criteria for story completion";
    "";
    "Guidelines:";
    "- Write in clear, professional language";
    "- Make acceptance criteria specific and testable";
    "- Consider edge cases and error scenarios";
    "- Include relevant technical details without being overly prescriptive";
    "- Ensure the story is sized appropriately (not too large for a single sprint)";
    "";
    "Original Story Information:";
    "Title: {title}";
    "Description: {description}";
    "Priority: {priority}";
    "Labels: {labels}";
    "Components: {components}";
    "";
    "Please expand this into a comprehensive JIRA story following the structure above."
  ].

Definition base_prompt : string := join nl base_lines.

(** [str.format] with keyword arguments [kw], for templates whose replacement fields are plain
    names (the only kind [base_prompt] has): text is copied, a doubled
    brace is one brace, [{name}] is replaced by [kw[name]].  A name that
    is not a keyword raises [KeyError]; a lone closing brace and an
    unclosed field raise [ValueError].  [field] is [Some acc] while the
    scan is inside a replacement field whose name so far is [acc]. *)
Fixpoint format_from (tpl : string) (field : option string)
    (kw : list (string * string)) : Result string :=
  match tpl, field with
  | EmptyString, None => Ok ""
  | EmptyString, Some _ => Raise (ValueError "expected '}' before end of string")
  | String c rest, Some name =>
      if Ascii.eqb c "}"%char then
        match List.find (λ p, String.eqb (fst p) name) kw with
        | Some p => r ←! format_from rest None kw; Ok (snd p ++ r)
        | None => Raise (KeyError name)
        end
      else format_from rest (Some (name ++ String c "")) kw
  | String c rest, None =>
      if Ascii.eqb c "{"%char then
        match rest with
        | String c' rest' =>
            if Ascii.eqb c' "{"%char
            then r ←! format_from rest' None kw; Ok (String c r)
            else format_from rest (Some "") kw
        | EmptyString => Raise (ValueError "Single '{' encountered in format string")
        end
      else if Ascii.eqb c "}"%char then
        match rest with
        | String c' rest' =>
            if Ascii.eqb c' "}"%char
            then r ←! format_from rest' None kw; Ok (String c r)
            else Raise (ValueError "Single '}' encountered in format string")
        | EmptyString => Raise (ValueError "Single '}' encountered in format string")
        end
      else r ←! format_from rest None kw; Ok (String c r)
  end.

Definition format (tpl : string) (kw : list (string * string)) : Result string :=
  format_from tpl None kw.

(** [StoryExpansionPrompt.generate_expansion_prompt]. *)
Definition generate_expansion_prompt (story : StoryOutline) : Result string :=
  format base_prompt [
    ("title", default "Untitled Story" (s_title story));
    ("description", default "No description provided" (s_description story));
    ("priority", default "Medium" (s_priority story));
    ("labels", str_or (join ", " (default [] (s_labels story))) "None");
    ("components", str_or (join ", " (default [] (s_components story))) "None")
  ].

(** The lines before and after the five story lines of the template. *)
Definition prompt_intro : string := join nl (take 19 base_lines).
Definition prompt_closing : string := join nl (drop 24 base_lines).

(** The template with its five fields filled in. *)
Definition rendered (title description priority labels components : string) : string :=
  prompt_intro ++ nl
  ++ "Title: " ++ title ++ nl
  ++ "Description: " ++ description ++ nl
  ++ "Priority: " ++ priority ++ nl
  ++ "Labels: " ++ labels ++ nl
  ++ "Components: " ++ components ++ nl
  ++ prompt_closing.

(** A list field that is absent or empty. *)
Definition absent_or_empty (o : option (list string)) : Prop := o = None ∨ o = Some [].

End Prompt.

(** ** Environment settings, remote services and the trace of calls *)

(** The fields of [AppSettings] that the embedded code reads. *)
Record AppSettings := mkSettings {
  jira_url : string;
  jira_project_key : string;
  timeout_seconds : Z;
  max_retries : Z
}.

(** What the tracker's SDK returns for a created issue. *)
Record Issue := mkIssue { issue_key : string; issue_id : string }.

(** One entry of the trace: a request sent to the completion service (with
    the [max_tokens] in force and the message contents), a call of
    [JiraAgent._prepare_issue_data], a create request sent to the tracker. *)
Inductive Event :=
| EvLLM (max_tokens : Z) (messages : list string)
| EvDerive (story : StoryOutline) (expanded_content : string)
| EvJiraCreate (fields : gmap string PyVal).

Definition is_llm_call (e : Event) : bool :=
  match e with EvLLM _ _ => true | _ => false end.
Definition is_derivation (e : Event) : bool :=
  match e with EvDerive _ _ => true | _ => false end.
Definition is_jira_call (e : Event) : bool :=
  match e with EvJiraCreate _ => true | _ => false end.

Definition llm_calls (tr : list Event) : list Event := List.filter is_llm_call tr.
Definition derivations (tr : list Event) : list Event := List.filter is_derivation tr.
Definition jira_calls (tr : list Event) : list Event := List.filter is_jira_call tr.

(** The remote services.  [llm_api n max_tokens messages] is what
    [ChatOpenAI.agenerate([messages])] gives on the call number [n]
    (counted from 0): an exception, or the texts of
    [response.generations].  [jira_api n fields] is what
    [JIRA.create_issue(fields=...)] gives on the call number [n]. *)
Record Services := mkServices {
  llm_api : nat → Z → list string → Result (list (list string));
  jira_api : nat → gmap string PyVal → Result Issue
}.

(** ** Completion client ([openai_client.py]) *)

Module LLM.

(** The [ChatOpenAI] object; the sampling temperature and the API key are
    not read by the embedded code and are left out. *)
Record ChatOpenAI := mkChat {
  co_model : string;
  co_max_tokens : Z;
  co_timeout : Z;
  co_max_retries : Z
}.

Record OpenAIClient := mkOpenAIClient {
  oc_settings : AppSettings;
  oc_model : string;
  _client : option ChatOpenAI
}.

(** [OpenAIClient.__init__]. *)
Definition new (st : AppSettings) (model : string) : OpenAIClient :=
  mkOpenAIClient st model None.

(** The property [OpenAIClient.client]: the cached object, created on first
    use.  Returns the object and the client with its cache filled. *)
Definition client (self : OpenAIClient) : ChatOpenAI * OpenAIClient :=
  match _client self with
  | Some c => (c, self)
  | None =>
      let c := mkChat (oc_model self) 1000
                 (timeout_seconds (oc_settings self)) (max_retries (oc_settings self)) in
      (c, mkOpenAIClient (oc_settings self) (oc_model self) (Some c))
  end.

(** [self.client.max_tokens = v]. *)
Definition set_max_tokens (self : OpenAIClient) (v : Z) : OpenAIClient :=
  let '(c, self1) := client self in
  mkOpenAIClient (oc_settings self1) (oc_model self1)
    (Some (mkChat (co_model c) v (co_timeout c) (co_max_retries c))).

(** [self.client.max_tokens]. *)
Definition get_max_tokens (self : OpenAIClient) : Z := co_max_tokens (fst (client self)).

(** [OpenAIClient.agenerate]: the handler logs and re-raises. *)
Definition agenerate (sv : Services) (self : OpenAIClient) (tr : list Event)
    (messages : list string) : Result string * OpenAIClient * list Event :=
  let '(c, self1) := client self in
  let tr1 := (tr ++ [EvLLM (co_max_tokens c) messages])%list in
  match llm_api sv (List.length (llm_calls tr)) (co_max_tokens c) messages with
  | Raise e => (Raise e, self1, tr1)
  | Ok generations =>
      match generations with
      | [] | [] :: _ => (Raise (ValueError "Empty response from OpenAI"), self1, tr1)
      | (text :: _) :: _ => (Ok text, self1, tr1)
      end
  end.

(** [OpenAIClient.generate_completion]: [if max_tokens:] holds for an integer
    other than 0; the handler logs and re-raises, and nothing else runs on
    that path. *)
Definition generate_completion (sv : Services) (self : OpenAIClient) (tr : list Event)
    (prompt : string) (max_tokens : option Z) : Result string * OpenAIClient * list Event :=
  let original_max_tokens := get_max_tokens self in
  let self1 := snd (client self) in
  let self2 :=
    match max_tokens with
    | Some v => if negb (Z.eqb v 0) then set_max_tokens self1 v else self1
    | None => self1
    end in
  match agenerate sv self2 tr [prompt] with
  | (Ok content, self3, tr3) => (Ok content, set_max_tokens self3 original_max_tokens, tr3)
  | (Raise e, self3, tr3) => (Raise e, self3, tr3)
  end.

End LLM.

(** ** Tracker client ([jira_client.py]) *)

Module Jira.

Definition required_fields : list string := ["project"; "summary"; "issuetype"].

(** [field not in issue_data]. *)
Definition not_in (field : string) (d : gmap string PyVal) : bool :=
  match d !! field with
  | None => true
  | Some _ => false
  end.

Definition missing_field_error (field : string) : Exn :=
  ValueError ("Required field '" ++ field ++ "' is missing from issue data").

(** The loop over [required_fields] of [_validate_issue_data]. *)
Fixpoint check_required (fields : list string) (issue_data : gmap string PyVal)
    : Result unit :=
  match fields with
  | [] => Ok tt
  | field :: rest =>
      if not_in field issue_data then Raise (missing_field_error field)
      else check_required rest issue_data
  end.

(** [not isinstance(v, dict) or key not in v]. *)
Definition not_dict_with (key : string) (v : PyVal) : bool :=
  match v with
  | PDict d => not_in key d
  | _ => true
  end.

(** [JiraClient._validate_issue_data].  [issue_data["project"]] is read only
    after the loop has found the key. *)
Definition _validate_issue_data (issue_data : gmap string PyVal) : Result unit :=
  _ ←! check_required required_fields issue_data;
  if not_dict_with "key" (default PNone (issue_data !! "project"))
  then Raise (ValueError "Project must be a dictionary with 'key' field")
  else if not_dict_with "name" (default PNone (issue_data !! "issuetype"))
  then Raise (ValueError "Issue type must be a dictionary with 'name' field")
  else Ok tt.

(** [d.get(key)]. *)
Definition get (d : gmap string PyVal) (key : string) : PyVal := default PNone (d !! key).

(** [issue_data.get("project", {}).get("key")]. *)
Definition project_key_of (issue_data : gmap string PyVal) : Result PyVal :=
  match default (PDict ∅) (issue_data !! "project") with
  | PDict d => Ok (get d "key")
  | _ => Raise (AttributeError "object has no attribute 'get'")
  end.

(** [JiraClient.create_issue]: validation, then the request, then the
    summary dict of the created issue; the handler logs and re-raises. *)
Definition create_issue (sv : Services) (st : AppSettings) (tr : list Event)
    (issue_data : gmap string PyVal) : Result (gmap string PyVal) * list Event :=
  match _validate_issue_data issue_data with
  | Raise e => (Raise e, tr)
  | Ok _ =>
      let tr1 := (tr ++ [EvJiraCreate issue_data])%list in
      match jira_api sv (List.length (jira_calls tr)) issue_data with
      | Raise e => (Raise e, tr1)
      | Ok issue =>
          match project_key_of issue_data with
          | Raise e => (Raise e, tr1)
          | Ok pk =>
              (Ok (<["key" := PStr (issue_key issue)]>
                   (<["id" := PStr (issue_id issue)]>
                   (<["url" := PStr (jira_url st ++ "/browse/" ++ issue_key issue)]>
                   (<["summary" := get issue_data "summary"]>
                   (<["project" := pk]> ∅))))), tr1)
          end
      end
  end.

End Jira.

(** ** Workflow controller ([jira_agent.py]) *)

Module Agent.

(** [AgentState]. *)
Record AgentState := mkState {
  stories : list StoryOutline;
  current_story : option StoryOutline;
  expanded_story : option string;
  jira_issue : option (gmap string PyVal);
  error : option string
}.

(** [AgentState.__init__]. *)
Definition initial_state : AgentState := mkState [] None None None None.

(** The agent: its configuration and mode.  The two clients it owns live in
    the [World]. *)
Record JiraAgent := mkAgent {
  config : Config;
  dry_run : bool;
  settings : AppSettings
}.

(** What the run changes outside the [AgentState]: the trace of calls and
    the completion client (its cached [ChatOpenAI] object). *)
Record World := mkWorld {
  trace : list Event;
  llm_client : LLM.OpenAIClient
}.

(** The world at the end of [JiraAgent.__init__]. *)
Definition initial_world (ag : JiraAgent) : World :=
  mkWorld [] (LLM.new (settings ag) "gpt-4").

Definition set_error (st : AgentState) (e : option string) : AgentState :=
  mkState (stories st) (current_story st) (expanded_story st) (jira_issue st) e.
Definition set_expanded_story (st : AgentState) (x : option string) : AgentState :=
  mkState (stories st) (current_story st) x (jira_issue st) (error st).
Definition set_jira_issue (st : AgentState) (i : option (gmap string PyVal)) : AgentState :=
  mkState (stories st) (current_story st) (expanded_story st) i (error st).

(** [JiraAgent._load_stories]. *)
Definition _load_stories (ag : JiraAgent) (st : AgentState) : AgentState :=
  mkState (default [] (cfg_stories (config ag)))
    (current_story st) (expanded_story st) (jira_issue st) (error st).

(** [JiraAgent._process_story]: [state.stories.pop(0)], as it acts on the
    state.  After [_load_stories] the queue is the configuration's own list
    object, so the pop removes the story from the configuration as well;
    [SharedQueue] below has the pair of them. *)
Definition _process_story (st : AgentState) : AgentState :=
  match stories st with
  | [] => st
  | story :: rest =>
      mkState rest (Some story) (expanded_story st) (jira_issue st) (error st)
  end.

(** [JiraAgent._expand_story]. *)
Definition _expand_story (sv : Services) (st : AgentState) (w : World)
    : AgentState * World :=
  match current_story st with
  | Some story =>
      if story_truthy story then
        match Prompt.generate_expansion_prompt story with
        | Raise e => (set_error st (Some ("Error expanding story: " ++ exn_msg e)), w)
        | Ok prompt =>
            match LLM.agenerate sv (llm_client w) (trace w) [prompt] with
            | (Ok content, c, tr) => (set_expanded_story st (Some content), mkWorld tr c)
            | (Raise e, c, tr) =>
                (set_error st (Some ("Error expanding story: " ++ exn_msg e)), mkWorld tr c)
            end
        end
      else (set_error st (Some "No current story to expand"), w)
  | None => (set_error st (Some "No current story to expand"), w)
  end.

(** [{"name": comp}]. *)
Definition named (comp : string) : PyVal := PDict {["name" := PStr comp]}.

(** [JiraAgent._prepare_issue_data].  [dict.get(key, default)] gives the
    default only when the key is absent. *)
Definition _prepare_issue_data (ag : JiraAgent) (story : StoryOutline)
    (expanded_content : string) : gmap string PyVal :=
  let global_config := default empty_global (cfg_global (config ag)) in
  let issue_data : gmap string PyVal :=
    <["project" := PDict {["key" := PStr
         (default (default (jira_project_key (settings ag)) (g_project global_config))
            (s_project story))]}]>
    (<["summary" := PStr (default "Generated Story" (s_title story))]>
    (<["description" := PStr expanded_content]>
    (<["issuetype" := PDict {["name" := PStr (default "Story" (s_issue_type story))]}]> ∅))) in
  let labels := default (default [] (g_labels global_config)) (s_labels story) in
  let issue_data :=
    if list_truthy labels then <["labels" := PList (PStr <$> labels)]> issue_data
    else issue_data in
  let components := default (default [] (g_components global_config)) (s_components story) in
  let issue_data :=
    if list_truthy components then <["components" := PList (named <$> components)]> issue_data
    else issue_data in
  let epic_key :=
    match s_epic story with
    | Some e => Some e
    | None => g_epic global_config
    end in
  match epic_key with
  | Some e => if str_truthy e then <["customfield_10014" := PStr e]> issue_data else issue_data
  | None => issue_data
  end.

(** The global defaults the derivation reads: [config.get("global", {})]. *)
Definition global_of (ag : JiraAgent) : GlobalDefaults :=
  default empty_global (cfg_global (config ag)).



(** The issue a dry run records. *)
Definition dry_run_issue : gmap string PyVal :=
  <["key" := PStr "DRY-RUN-123"]> (<["dry_run" := PBool true]> ∅).

(** [JiraAgent._create_jira_issue]. *)
Definition _create_jira_issue (sv : Services) (ag : JiraAgent) (st : AgentState)
    (w : World) : AgentState * World :=
  if opt_str_truthy (error st) then (st, w)
  else
    match expanded_story st, current_story st with
    | Some expanded, Some story =>
        if str_truthy expanded && story_truthy story then
          let issue_data := _prepare_issue_data ag story expanded in
          let tr := (trace w ++ [EvDerive story expanded])%list in
          if dry_run ag then
            (set_jira_issue st (Some dry_run_issue), mkWorld tr (llm_client w))
          else
            match Jira.create_issue sv (settings ag) tr issue_data with
            | (Ok issue, tr') => (set_jira_issue st (Some issue), mkWorld tr' (llm_client w))
            | (Raise e, tr') =>
                (set_error st (Some ("Error creating JIRA issue: " ++ exn_msg e)),
                 mkWorld tr' (llm_client w))
            end
        else (set_error st (Some "Missing expanded story or current story"), w)
    | _, _ => (set_error st (Some "Missing expanded story or current story"), w)
    end.

(** The guards of [_create_jira_issue] let the state through: no error, an
    expanded story and a current story. *)
Definition submit_ready (st : AgentState) : bool :=
  negb (opt_str_truthy (error st))
  && opt_str_truthy (expanded_story st)
  && opt_story_truthy (current_story st).

(** The agent in the other mode. *)
Definition with_dry_run (ag : JiraAgent) (dry : bool) : JiraAgent :=
  mkAgent (config ag) dry (settings ag).

(** The error indicator is unset or holds a non-empty message. *)
Definition error_well_formed (st : AgentState) : Prop :=
  error st = None ∨ opt_str_truthy (error st) = true.

(** [JiraAgent._handle_error]. *)
Definition _handle_error (st : AgentState) : AgentState :=
  if opt_str_truthy (error st) then mkState (stories st) None None None None
  else st.

(** *** The graph of [_build_graph] *)

Inductive Node :=
| load_stories
| process_story
| expand_story
| create_jira_issue
| handle_error.

Definition node_eqb (a b : Node) : bool :=
  match a, b with
  | load_stories, load_stories
  | process_story, process_story
  | expand_story, expand_story
  | create_jira_issue, create_jira_issue
  | handle_error, handle_error => true
  | _, _ => false
  end.

(** The functions given to [add_node]. *)
Definition node_action (sv : Services) (ag : JiraAgent) (n : Node)
    (st : AgentState) (w : World) : AgentState * World :=
  match n with
  | load_stories => (_load_stories ag st, w)
  | process_story => (_process_story st, w)
  | expand_story => _expand_story sv st w
  | create_jira_issue => _create_jira_issue sv ag st w
  | handle_error => (_handle_error st, w)
  end.

(** The calls of [add_edge], in order. *)
Definition edges : list (Node * Node) :=
  [ (load_stories, process_story);
    (process_story, expand_story);
    (expand_story, create_jira_issue);
    (create_jira_issue, process_story);
    (handle_error, process_story) ].


(** The node an edge leads to from [n], if any. *)
Definition successor (n : Node) : option Node :=
  snd <$> List.find (λ e, node_eqb (fst e) n) edges.

End Agent.

(** ** The rules of the specification, as it words them *)

Module Spec.



End Spec.

(** ** Concrete configurations and services used as test inputs *)

Module Examples.
Import Agent.

Definition env_settings : AppSettings := mkSettings "https://jira.example" "OPS" 30 3.

(** A completion service that answers every request, and a tracker that
    accepts every request. *)
Definition services_ok : Services :=
  mkServices (λ _ _ _, Ok [["As a user, I want ..."]])
             (λ _ _, Ok (mkIssue "OPS-1" "10001")).

(** The same, except that the first request to the completion service
    times out. *)
Definition services_first_expansion_fails : Services :=
  mkServices (λ n _ _, match n with
                       | O => Raise (mkExn "TimeoutError" "Request timed out.")
                       | S _ => Ok [["As a user, I want ..."]]
                       end)
             (jira_api services_ok).

(** The same as [services_ok], except that every request to the completion
    service times out. *)
Definition services_expansion_fails : Services :=
  mkServices (λ _ _ _, Raise (mkExn "TimeoutError" "Request timed out."))
             (jira_api services_ok).

Definition story_a : StoryOutline :=
  mkStory (Some "Story A") (Some "First") None None None None None None.
Definition story_b : StoryOutline :=
  mkStory (Some "Story B") (Some "Second") None None None None None None.



Definition global_with_labels : GlobalDefaults :=
  mkGlobal (Some "WEB") (Some ["team-a"]) None None.

Definition agent_of (stories : list StoryOutline) (dry : bool) : JiraAgent :=
  mkAgent (mkConfig (Some global_with_labels) (Some stories)) dry env_settings.

(** A state at the submit step: [story] is current and expanded, no error. *)
Definition ready_state (story : StoryOutline) : AgentState :=
  mkState [] (Some story) (Some "As a user, I want ...") None None.

End Examples.

(** ** Further functions of the sources *)

From Stdlib Require DecimalString.


(** *** The refinement prompt ([story_expansion.py]) *)

Module Refine.
Import Prompt.

(** The lines of the literal [refinement_prompt], after [.strip()].  The
    ninth and the tenth line end in a blank. *)
Definition refinement_lines : list string :=
  [ "Please refine the following JIRA story based on the provided feedback:";
    "";
    "Original Story:";
    "{original_story}";
    "";
    "Feedback/Requirements:";
    "{feedback}";
    "";
    "Please provide the refined version of the story, maintaining the same structure but ";
    "addressing the feedback provided. Focus on improving clarity, completeness, and ";
    "actionability of the story."
  ].

Definition refinement_prompt : string := join nl refinement_lines.

(** [StoryExpansionPrompt.generate_refinement_prompt]. *)
Definition generate_refinement_prompt (original_story feedback : string) : Result string :=
  format refinement_prompt [
    ("original_story", original_story);
    ("feedback", feedback)
  ].

End Refine.

(** *** Story expansion by the completion client ([openai_client.py]) *)

Module Completion.
Import LLM.

(** [OpenAIClient.generate_story_expansion]: the handler logs and
    re-raises. *)
Definition generate_story_expansion (sv : Services) (self : OpenAIClient)
    (tr : list Event) (prompt : string) : Result string * OpenAIClient * list Event :=
  match agenerate sv self tr [prompt] with
  | (Ok content, self1, tr1) => (Ok content, self1, tr1)
  | (Raise e, self1, tr1) => (Raise e, self1, tr1)
  end.

End Completion.

(** *** Searching the tracker ([jira_client.py]) *)

Module JiraSearch.

(** An issue as the tracker's SDK gives it: [assignee] is [None] for an
    unassigned issue, else the display name. *)
Record RemoteIssue := mkRemote {
  r_key : string;
  r_id : string;
  r_summary : string;
  r_status : string;
  r_assignee : option string
}.

(** [x if x else None] for an optional display name. *)
Definition opt_str (o : option string) : PyVal :=
  match o with
  | Some s => PStr s
  | None => PNone
  end.

(** The dict built for one issue of the result. *)
Definition issue_entry (i : RemoteIssue) : gmap string PyVal :=
  <["key" := PStr (r_key i)]>
  (<["id" := PStr (r_id i)]>
  (<["summary" := PStr (r_summary i)]>
  (<["status" := PStr (r_status i)]>
  (<["assignee" := opt_str (r_assignee i)]> ∅)))).

(** [JiraClient.search_issues]: [api jql max_results] is what
    [JIRA.search_issues(jql, maxResults=max_results)] gives; the handler
    logs and re-raises. *)
Definition search_issues (api : string → Z → Result (list RemoteIssue))
    (jql : string) (max_results : option Z) : Result (list (gmap string PyVal)) :=
  match api jql (default 50%Z max_results) with
  | Ok issues => Ok (issue_entry <$> issues)
  | Raise e => Raise e
  end.

End JiraSearch.

(** *** Loading the configuration ([config.py]) and the [validate] command
    ([main.py]) *)

Module ConfigFile.

Definition FileNotFoundError (msg : string) : Exn := mkExn "FileNotFoundError" msg.

(** [load_config].  The file system maps the paths that exist to the text
    of the file; [safe_load] is the YAML parser: it raises, or gives [None]
    for an empty document, or the loaded mapping. *)
Definition load_config (fs : gmap string string)
    (safe_load : string → Result (option Config)) (config_path : string)
    : Result Config :=
  match fs !! config_path with
  | None => Raise (FileNotFoundError ("Configuration file not found: " ++ config_path))
  | Some text =>
      match safe_load text with
      | Raise e => Raise e
      | Ok None => Raise (ValueError ("Empty or invalid YAML file: " ++ config_path))
      | Ok (Some config) => Ok config
      end
  end.


End ConfigFile.

(** *** The vector store client ([chroma_client.py]) *)

Module Chroma.

Definition IndexError : Exn := mkExn "IndexError" "list index out of range".

Section Client.

(** Distances are floating-point numbers; the client only copies them, so
    their type is left open, with [zero] for the literal [0.0]. *)
Context {D : Type} (zero : D).

(** What [collection.query] returns: under each key a list with one row per
    query text, or [None]. *)
Record QueryResult := mkQuery {
  q_ids : option (list (list string));
  q_documents : option (list (list string));
  q_metadatas : option (list (list (gmap string PyVal)));
  q_distances : option (list (list D))
}.

(** One formatted result. *)
Record Hit := mkHit {
  hit_document : string;
  hit_metadata : gmap string PyVal;
  hit_distance : D;
  hit_id : option string
}.

(** [col[0][i] if col else dflt]: an absent or empty column gives the
    default; a first row shorter than [i + 1] raises [IndexError]. *)
Definition cell {A} (dflt : A) (col : option (list (list A))) (i : nat) : Result A :=
  match col with
  | Some (row :: _) =>
      match row !! i with
      | Some x => Ok x
      | None => Raise IndexError
      end
  | _ => Ok dflt
  end.

(** The loop over [enumerate(results['documents'][0])], from index [i]. *)
Fixpoint format_from (r : QueryResult) (i : nat) (docs : list string) : Result (list Hit) :=
  match docs with
  | [] => Ok []
  | doc :: rest =>
      m ←! cell ∅ (q_metadatas r) i;
      d ←! cell zero (q_distances r) i;
      k ←! cell None (option_map (List.map (List.map Some)) (q_ids r)) i;
      hits ←! format_from r (S i) rest;
      Ok (mkHit doc m d k :: hits)
  end.

(** The formatting part of [search_similar]. *)
Definition format_results (r : QueryResult) : Result (list Hit) :=
  match q_documents r with
  | Some ((doc :: docs) :: _) => format_from r 0 (doc :: docs)
  | _ => Ok []
  end.

(** The client's cache of the collection, and the calls it makes to the
    store. *)
Inductive Call :=
| GetCollection (name : string)
| CreateCollection (name : string)
| Query (name : string) (query : string) (n_results : Z)
| DeleteCollection (name : string).

(** The store: each operation raises or succeeds. *)
Record Store := mkStore {
  store_get : string → Result unit;
  store_create : string → Result unit;
  store_query : string → string → Z → option (gmap string PyVal) → Result QueryResult;
  store_delete : string → Result unit
}.

Record ChromaClient := mkChroma {
  collection_name : string;
  _collection : option string
}.

(** [ChromaClient.__init__] (with the package installed). *)
Definition new (name : option string) : ChromaClient :=
  mkChroma (default "jira_stories" name) None.

(** The property [ChromaClient.collection]: the cached collection, else the
    existing one, else a new one. *)
Definition collection (s : Store) (self : ChromaClient) (tr : list Call)
    : Result string * ChromaClient * list Call :=
  match _collection self with
  | Some c => (Ok c, self, tr)
  | None =>
      let name := collection_name self in
      match store_get s name with
      | Ok _ => (Ok name, mkChroma name (Some name), (tr ++ [GetCollection name])%list)
      | Raise _ =>
          let tr1 := (tr ++ [GetCollection name; CreateCollection name])%list in
          match store_create s name with
          | Ok _ => (Ok name, mkChroma name (Some name), tr1)
          | Raise e => (Raise e, self, tr1)
          end
      end
  end.

(** [ChromaClient.search_similar]: the handler logs and re-raises. *)
Definition search_similar (s : Store) (self : ChromaClient) (tr : list Call)
    (query : string) (n_results : option Z) (filter_metadata : option (gmap string PyVal))
    : Result (list Hit) * ChromaClient * list Call :=
  match collection s self tr with
  | (Raise e, self1, tr1) => (Raise e, self1, tr1)
  | (Ok c, self1, tr1) =>
      let n := default 5%Z n_results in
      let tr2 := (tr1 ++ [Query c query n])%list in
      match store_query s c query n filter_metadata with
      | Raise e => (Raise e, self1, tr2)
      | Ok results => (format_results results, self1, tr2)
      end
  end.

(** [ChromaClient.delete_collection]: the cache is cleared after the store
    has deleted the collection; the handler logs and re-raises. *)
Definition delete_collection (s : Store) (self : ChromaClient) (tr : list Call)
    : Result unit * ChromaClient * list Call :=
  let name := collection_name self in
  let tr1 := (tr ++ [DeleteCollection name])%list in
  match store_delete s name with
  | Ok _ => (Ok tt, mkChroma name None, tr1)
  | Raise e => (Raise e, self, tr1)
  end.

End Client.

End Chroma.

(** *** The queue and the configuration's list *)

Module SharedQueue.
Import Agent.

(** The agent and the state together.  [sh_aliased] says that
    [state.stories] is the list object held by [config["stories"]]: that is so
    after [_load_stories] when the configuration has the key (without the key,
    [config.get("stories", [])] gives a new list that the configuration does
    not hold). *)
Record Shared := mkShared {
  sh_agent : JiraAgent;
  sh_state : AgentState;
  sh_aliased : bool
}.

(** The configuration with its list of stories replaced. *)
Definition with_stories (ag : JiraAgent) (l : list StoryOutline) : JiraAgent :=
  mkAgent (mkConfig (cfg_global (config ag)) (Some l)) (dry_run ag) (settings ag).

(** [_load_stories] on the pair. *)
Definition load_stories_shared (ag : JiraAgent) (st : AgentState) : Shared :=
  mkShared ag (_load_stories ag st)
    match cfg_stories (config ag) with Some _ => true | None => false end.

(** [_process_story] on the pair: the pop acts on the one list. *)
Definition process_story_shared (s : Shared) : Shared :=
  let st := _process_story (sh_state s) in
  if sh_aliased s then mkShared (with_stories (sh_agent s) (stories st)) st true
  else mkShared (sh_agent s) st false.

(** [k] calls of [_process_story] on the pair. *)
Fixpoint process_stories_shared (k : nat) (s : Shared) : Shared :=
  match k with
  | O => s
  | S k' => process_stories_shared k' (process_story_shared s)
  end.

End SharedQueue.

(** *** Outcomes of the two remote calls, as the clients read them *)

Module Outcome.

(** What [agenerate] makes of the service's answer: the text of the first
    candidate of the first batch, or the empty-response error. *)
Definition first_candidate (r : Result (list (list string))) : Result string :=
  match r with
  | Raise e => Raise e
  | Ok [] | Ok ([] :: _) => Raise (ValueError "Empty response from OpenAI")
  | Ok ((text :: _) :: _) => Ok text
  end.

(** The dict [create_issue] returns for a created issue. *)
Definition created_issue (st : AppSettings) (issue : Issue) (summary project : PyVal)
    : gmap string PyVal :=
  <["key" := PStr (issue_key issue)]>
  (<["id" := PStr (issue_id issue)]>
  (<["url" := PStr (jira_url st ++ "/browse/" ++ issue_key issue)]>
  (<["summary" := summary]>
  (<["project" := project]> ∅)))).

End Outcome.

(** *** Columns of a query result *)

Module Columns.



End Columns.

(** Case analysis on the three optional entries of the payload. *)
Ltac payload_cases :=
  destruct (default _ (s_labels _)) as [|? ?];
  destruct (default _ (s_components _)) as [|? ?];
  simpl; repeat case_match; by simplify_map_eq.

(** ** The rendered prompt *)

Section PromptFacts.
Import Prompt.

Lemma generate_expansion_prompt_rendered (story : StoryOutline) :
  generate_expansion_prompt story =
  Ok (rendered (default "Untitled Story" (s_title story))
        (default "No description provided" (s_description story))
        (default "Medium" (s_priority story))
        (str_or (join ", " (default [] (s_labels story))) "None")
        (str_or (join ", " (default [] (s_components story))) "None")).
Proof. vm_compute. reflexivity. Qed.

Lemma join_absent_or_empty (o : option (list string)) :
  absent_or_empty o → str_or (join ", " (default [] o)) "None" = "None".
Proof. intros [-> | ->]; reflexivity. Qed.

Lemma append_assoc (a b c : string) : (a ++ b) ++ c = a ++ b ++ c.
Proof.
  induction a as [|ch a IH]; [reflexivity |].
  change (String ch ((a ++ b) ++ c) = String ch (a ++ b ++ c)).
  by rewrite IH.
Qed.

Lemma rendered_none_sections (t d p : string) :
  occurs_in ("Labels: None" ++ nl ++ "Components: None" ++ nl) (rendered t d p "None" "None").
Proof.
  exists (prompt_intro ++ nl ++ "Title: " ++ t ++ nl ++ "Description: " ++ d ++ nl
          ++ "Priority: " ++ p ++ nl), prompt_closing.
  unfold rendered. rewrite !append_assoc. reflexivity.
Qed.

(** C7. The expansion prompt is a total function of the story: for every
    story it returns (never raises) the template with its five fields filled
    in, each field on its own: the title is the story's title, or "Untitled
    Story" when the story has none; the description is the story's, or "No
    description provided"; the priority is the story's, or "Medium"; the
    labels are the story's labels joined by ", ", or "None" when the story has
    no labels or an empty list (or when the joined text is empty); the
    components likewise.  So when the labels and the components are absent or
    empty, the text holds "Labels: None" and "Components: None" as its label
    and component lines. *)
Theorem generate_expansion_prompt_defaults (story : StoryOutline) :
  generate_expansion_prompt story =
    Ok (rendered
          match s_title story with Some t => t | None => "Untitled Story" end
          match s_description story with Some d => d | None => "No description provided" end
          match s_priority story with Some p => p | None => "Medium" end
          match s_labels story with
          | Some (x :: l) => str_or (join ", " (x :: l)) "None"
          | _ => "None"
          end
          match s_components story with
          | Some (x :: l) => str_or (join ", " (x :: l)) "None"
          | _ => "None"
          end) ∧
  (absent_or_empty (s_labels story) → absent_or_empty (s_components story) →
   ∃ prompt, generate_expansion_prompt story = Ok prompt ∧
     occurs_in ("Labels: None" ++ nl ++ "Components: None" ++ nl) prompt).
Proof.
  rewrite generate_expansion_prompt_rendered. split.
  - destruct story as [[t|] [d|] [p|] [[|x l]|] [[|y m]|] pr it ep]; reflexivity.
  - intros Hl Hc. eexists; split; [reflexivity |].
    rewrite (join_absent_or_empty _ Hl), (join_absent_or_empty _ Hc).
    apply rendered_none_sections.
Qed.

(** The theorem at the story [{"description": "Only a description",
    "components": []}]: the title and the priority take their defaults, the
    description is the story's. *)
Lemma generate_expansion_prompt_defaults_witness :
  generate_expansion_prompt
    (mkStory None (Some "Only a description") None None (Some []) None None None) =
    Ok (rendered "Untitled Story" "Only a description" "Medium" "None" "None") ∧
  ∃ prompt, generate_expansion_prompt
      (mkStory None (Some "Only a description") None None (Some []) None None None)
      = Ok prompt ∧
    occurs_in ("Labels: None" ++ nl ++ "Components: None" ++ nl) prompt.
Proof.
  pose proof (generate_expansion_prompt_defaults
    (mkStory None (Some "Only a description") None None (Some []) None None None))
    as (H1 & H2).
  split; [exact H1 |].
  apply H2; [left | right]; reflexivity.
Defined.

End PromptFacts.

(** ** The tracker client's validation *)

Section JiraFacts.
Import Jira.
Context (sv : Services) (st : AppSettings).

Lemma check_required_missing (fields : list string) (issue_data : gmap string PyVal)
    (field : string) :
  field ∈ fields → issue_data !! field = None →
  ∃ f, f ∈ fields ∧ issue_data !! f = None ∧
       check_required fields issue_data = Raise (missing_field_error f).
Proof.
  intros Hin Hmiss. induction fields as [|g rest IH]; [by apply elem_of_nil in Hin |].
  simpl. unfold not_in at 1. destruct (issue_data !! g) eqn:Hg.
  - apply elem_of_cons in Hin as [-> | Hin]; [congruence |].
    destruct (IH Hin) as (f & Hf & Hnone & Heq).
    exists f. split; [by apply elem_of_cons; right | done].
  - exists g. split; [by apply elem_of_cons; left | done].
Qed.

Lemma check_required_ok (fields : list string) (issue_data : gmap string PyVal) :
  check_required fields issue_data = Ok tt →
  ∀ f, f ∈ fields → is_Some (issue_data !! f).
Proof.
  induction fields as [|g rest IH]; intros Hok f Hin; [by apply elem_of_nil in Hin |].
  simpl in Hok. unfold not_in in Hok at 1. destruct (issue_data !! g) eqn:Hg; [| done].
  apply elem_of_cons in Hin as [-> | Hin]; [by rewrite Hg | by apply IH].
Qed.

Lemma create_issue_invalid (tr : list Event) (issue_data : gmap string PyVal) (e : Exn) :
  _validate_issue_data issue_data = Raise e →
  create_issue sv st tr issue_data = (Raise e, tr).
Proof. intros H. unfold create_issue. by rewrite H. Qed.

(** A request reaches the tracker only with a payload that passed the
    validation. *)
Lemma create_issue_calls_after_validation (tr : list Event)
    (issue_data : gmap string PyVal) :
  snd (create_issue sv st tr issue_data) ≠ tr →
  _validate_issue_data issue_data = Ok tt ∧
  ∀ f, f ∈ required_fields → is_Some (issue_data !! f).
Proof.
  unfold create_issue. destruct (_validate_issue_data issue_data) as [[]|e] eqn:Hv; [| done].
  intros _. split; [done |]. apply check_required_ok.
  unfold _validate_issue_data in Hv.
  destruct (check_required required_fields issue_data) as [[]|]; done.
Qed.

(** C6. When one of project, summary and issuetype is missing from the
    payload, [create_issue] raises the validation error that names a missing
    field (the first one in the order project, summary, issuetype), without
    sending anything to the tracker: the trace is unchanged, so no request
    was made and no issue was created. *)
Theorem create_issue_missing_field (tr : list Event) (issue_data : gmap string PyVal)
    (field : string) :
  field ∈ required_fields → issue_data !! field = None →
  ∃ f, f ∈ required_fields ∧ issue_data !! f = None ∧
       create_issue sv st tr issue_data =
       (Raise (ValueError ("Required field '" ++ f ++ "' is missing from issue data")), tr).
Proof.
  intros Hin Hmiss.
  destruct (check_required_missing _ _ _ Hin Hmiss) as (f & Hf & Hnone & Heq).
  exists f. split; [done | split; [done |]].
  apply create_issue_invalid. unfold _validate_issue_data. by rewrite Heq.
Qed.

End JiraFacts.

(** The theorem at the payload [{"project": {"key": "P"}, "issuetype":
    {"name": "Story"}}], which lacks the summary, with a tracker that would
    accept anything. *)
Lemma create_issue_missing_field_witness :
  ∃ f, f ∈ Jira.required_fields ∧
    (<["project" := PDict {["key" := PStr "P"]}]>
       (<["issuetype" := PDict {["name" := PStr "Story"]}]> ∅) : gmap string PyVal) !! f = None ∧
    Jira.create_issue
      (mkServices (λ _ _ _, Ok [["text"]]) (λ _ _, Ok (mkIssue "P-1" "10001")))
      (mkSettings "https://jira.example" "P" 30 3) []
      (<["project" := PDict {["key" := PStr "P"]}]>
         (<["issuetype" := PDict {["name" := PStr "Story"]}]> ∅)) =
    (Raise (ValueError ("Required field '" ++ f ++ "' is missing from issue data")), []).
Proof.
  apply (create_issue_missing_field
           (mkServices (λ _ _ _, Ok [["text"]]) (λ _ _, Ok (mkIssue "P-1" "10001")))
           (mkSettings "https://jira.example" "P" 30 3) [] _ "summary").
  - unfold Jira.required_fields. set_solver.
  - reflexivity.
Defined.

(** ** Issue field derivation *)

Section DerivationFacts.
Import Agent.



Lemma prepare_issue_data_project (ag : JiraAgent) (story : StoryOutline) (e : string) :
  _prepare_issue_data ag story e !! "project" =
  Some (PDict {["key" := PStr
    (default (default (jira_project_key (settings ag)) (g_project (global_of ag)))
       (s_project story))]}).
Proof.
  unfold _prepare_issue_data, global_of.
  payload_cases.
Qed.

Lemma prepare_issue_data_summary (ag : JiraAgent) (story : StoryOutline) (e : string) :
  _prepare_issue_data ag story e !! "summary" =
  Some (PStr (default "Generated Story" (s_title story))).
Proof.
  unfold _prepare_issue_data, global_of.
  payload_cases.
Qed.

Lemma prepare_issue_data_issuetype (ag : JiraAgent) (story : StoryOutline) (e : string) :
  _prepare_issue_data ag story e !! "issuetype" =
  Some (PDict {["name" := PStr (default "Story" (s_issue_type story))]}).
Proof.
  unfold _prepare_issue_data, global_of.
  payload_cases.
Qed.

(** Every derived payload passes the tracker client's validation. *)
Lemma prepare_issue_data_valid (ag : JiraAgent) (story : StoryOutline) (e : string) :
  Jira._validate_issue_data (_prepare_issue_data ag story e) = Ok tt.
Proof.
  unfold Jira._validate_issue_data, Jira.required_fields, Jira.check_required, Jira.not_in.
  rewrite prepare_issue_data_project, prepare_issue_data_summary,
    prepare_issue_data_issuetype.
  reflexivity.
Qed.

End DerivationFacts.

Section DerivationTheorems.
Import Agent Examples.





End DerivationTheorems.

(** ** The submit step *)

Section SubmitFacts.
Import Agent Examples.
Context (sv : Services).

Lemma submit_ready_inv (st : AgentState) :
  submit_ready st = true →
  ∃ story expanded,
    current_story st = Some story ∧ expanded_story st = Some expanded ∧
    opt_str_truthy (error st) = false ∧ str_truthy expanded = true ∧
    story_truthy story = true.
Proof.
  unfold submit_ready. intros H.
  apply andb_true_iff in H as [H Hs]. apply andb_true_iff in H as [He Hx].
  destruct (current_story st) as [story|]; [| done].
  destruct (expanded_story st) as [expanded|]; [| done].
  exists story, expanded. by rewrite (negb_true_iff _) in He.
Qed.

Lemma create_jira_issue_not_ready (ag : JiraAgent) (st : AgentState) (w : World) :
  submit_ready st = false →
  _create_jira_issue sv ag st w =
  if opt_str_truthy (error st) then (st, w)
  else (set_error st (Some "Missing expanded story or current story"), w).
Proof.
  unfold submit_ready, _create_jira_issue. intros H.
  destruct (opt_str_truthy (error st)); [done |].
  destruct (expanded_story st) as [x|], (current_story st) as [s|]; simpl in *; try done.
  by rewrite H.
Qed.

(** No node leaves an empty error message behind. *)
Lemma node_action_error_well_formed (ag : JiraAgent) (n : Node) (st : AgentState)
    (w : World) :
  error_well_formed st → error_well_formed (fst (node_action sv ag n st w)).
Proof.
  unfold error_well_formed. intros H. destruct n; simpl.
  - done.
  - unfold _process_story. by destruct (stories st).
  - unfold _expand_story.
    repeat case_match; simpl; first [exact H | right; reflexivity].
  - unfold _create_jira_issue.
    destruct H as [H | H]; repeat case_match; simpl;
      first [by left | by right | right; congruence].
  - unfold _handle_error.
    destruct H as [H | H]; repeat case_match; simpl;
      first [by left | by right | right; congruence].
Qed.

(** C10. In a state whose error indicator is set (the test [if
    state.error] holds), the submit step returns the state and the world as
    they are: nothing is derived and nothing is sent, whatever the current
    story and the expanded content are.  Conversely the step changes the
    world (derives or sends something) only from a state whose error
    indicator is unset. *)
Theorem create_jira_issue_skips_on_error (ag : JiraAgent) (st : AgentState) (w : World) :
  (opt_str_truthy (error st) = true → _create_jira_issue sv ag st w = (st, w)) ∧
  (snd (_create_jira_issue sv ag st w) ≠ w → opt_str_truthy (error st) = false).
Proof.
  unfold _create_jira_issue. destruct (opt_str_truthy (error st)); split; try done.
Qed.

End SubmitFacts.

(** The theorem at a state that holds an error together with a freshly
    dequeued story and an expanded content. *)
Lemma create_jira_issue_skips_on_error_witness :
  Agent._create_jira_issue Examples.services_ok (Examples.agent_of [] false)
    (Agent.mkState [] (Some Examples.story_b) (Some "As a user, I want ...") None
       (Some "Error expanding story: Request timed out."))
    (Agent.initial_world (Examples.agent_of [] false))
  = (Agent.mkState [] (Some Examples.story_b) (Some "As a user, I want ...") None
       (Some "Error expanding story: Request timed out."),
     Agent.initial_world (Examples.agent_of [] false)).
Proof.
  apply (create_jira_issue_skips_on_error Examples.services_ok). reflexivity.
Defined.

(** ** Dry runs *)

Section DryRunFacts.
Import Agent Examples.
Context (sv : Services).

Lemma jira_calls_app (tr tr' : list Event) :
  jira_calls (tr ++ tr')%list = (jira_calls tr ++ jira_calls tr')%list.
Proof. apply List.filter_app. Qed.



(** In a dry run the submit step sends nothing to the tracker. *)
Lemma dry_run_create_jira_issue_jira_calls (ag : JiraAgent) (st : AgentState) (w : World) :
  dry_run ag = true →
  jira_calls (trace (snd (_create_jira_issue sv ag st w))) = jira_calls (trace w).
Proof.
  intros Hdry. unfold _create_jira_issue. rewrite Hdry.
  repeat case_match; simpl; try done.
  rewrite jira_calls_app. simpl. apply app_nil_r.
Qed.

(** C8. In dry-run mode: (1) the submit step never sends a request to the
    tracker, in whatever state it is called; (2) from a state that passes the
    guards of the submit step (no error, an expanded story, a current story)
    the step records the placeholder issue [{"key": "DRY-RUN-123", "dry_run":
    True}] as the created issue and changes nothing else in the state; (3) the
    rest is as in a real run: the submit step is the only node function that
    reads the mode ([_load_stories] reads the agent for its configuration
    only, and the other node functions do not take the agent), a state stopped
    by the guards is treated alike in both modes, and the step derives the
    same payload and leaves the queue, the current story and the expanded
    story as a real run does. *)
Theorem dry_run_create_jira_issue (ag : JiraAgent) (st : AgentState) (w : World) :
  dry_run ag = true →
  jira_calls (trace (snd (_create_jira_issue sv ag st w))) = jira_calls (trace w) ∧
  (submit_ready st = true →
   ∃ story expanded,
     current_story st = Some story ∧ expanded_story st = Some expanded ∧
     _create_jira_issue sv ag st w =
     (mkState (stories st) (current_story st) (expanded_story st)
        (Some (<["key" := PStr "DRY-RUN-123"]> (<["dry_run" := PBool true]> ∅)))
        (error st),
      mkWorld (trace w ++ [EvDerive story expanded])%list (llm_client w))) ∧
  _load_stories (with_dry_run ag false) st = _load_stories ag st ∧
  (submit_ready st = false →
   _create_jira_issue sv (with_dry_run ag false) st w = _create_jira_issue sv ag st w) ∧
  (let real := _create_jira_issue sv (with_dry_run ag false) st w in
   let dry := _create_jira_issue sv ag st w in
   stories (fst real) = stories (fst dry) ∧
   current_story (fst real) = current_story (fst dry) ∧
   expanded_story (fst real) = expanded_story (fst dry) ∧
   derivations (trace (snd real)) = derivations (trace (snd dry)) ∧
   llm_calls (trace (snd real)) = llm_calls (trace (snd dry))).
Proof.
  intros Hdry. split; [by apply dry_run_create_jira_issue_jira_calls |].
  split; [| split; [reflexivity | split]].
  - intros Hready.
    destruct (submit_ready_inv st Hready) as (story & expanded & Hs & Hx & He & Hxt & Hst).
    exists story, expanded. split; [done | split; [done |]].
    assert (_create_jira_issue sv ag st w =
            (set_jira_issue st (Some dry_run_issue),
             mkWorld (trace w ++ [EvDerive story expanded])%list (llm_client w))) as ->.
    { unfold _create_jira_issue. by rewrite He, Hs, Hx, Hxt, Hst, Hdry. }
    reflexivity.
  - intros Hnot. by rewrite !create_jira_issue_not_ready.
  - simpl. unfold _create_jira_issue. rewrite Hdry. simpl.
    destruct (opt_str_truthy (error st)); [done |].
    destruct (expanded_story st) as [x|], (current_story st) as [s|]; try done.
    destruct (str_truthy x && story_truthy s); [| done].
    unfold Jira.create_issue. rewrite prepare_issue_data_valid.
    unfold derivations, llm_calls.
    repeat case_match; simplify_eq; simpl; rewrite ?List.filter_app; simpl;
      by rewrite ?app_nil_r.
Qed.

End DryRunFacts.

(** The theorem at a dry run of one story that has been expanded: nothing
    is sent, and the recorded issue has the key "DRY-RUN-123". *)
Lemma dry_run_create_jira_issue_witness :
  jira_calls (Agent.trace (snd (Agent._create_jira_issue Examples.services_ok
    (Examples.agent_of [] true) (Examples.ready_state Examples.story_a)
    (Agent.initial_world (Examples.agent_of [] true))))) = [] ∧
  ∃ issue,
    Agent.jira_issue (fst (Agent._create_jira_issue Examples.services_ok
      (Examples.agent_of [] true) (Examples.ready_state Examples.story_a)
      (Agent.initial_world (Examples.agent_of [] true)))) = Some issue ∧
    issue !! "key" = Some (PStr "DRY-RUN-123").
Proof.
  destruct (dry_run_create_jira_issue Examples.services_ok (Examples.agent_of [] true)
              (Examples.ready_state Examples.story_a)
              (Agent.initial_world (Examples.agent_of [] true)) eq_refl)
    as (H1 & H2 & _).
  split; [exact H1 |].
  destruct (H2 eq_refl) as (story & expanded & _ & _ & ->).
  eexists. split; reflexivity.
Defined.

(** ** The wiring of the graph *)

Section WiringFacts.
Import Agent Examples.
Context (sv : Services) (ag : JiraAgent).

(** An edge leaves every node, and it leads neither to [handle_error] nor
    back to [load_stories]. *)
Lemma successor_total (n : Node) :
  ∃ n', successor n = Some n' ∧ n' ≠ handle_error ∧ n' ≠ load_stories.
Proof. destruct n; eexists; (split; [reflexivity | split; discriminate]). Qed.






(** C3 (the wiring and the node functions at an empty queue). The graph has
    no end: an edge leaves every node and leads to another node, and the one
    edge that leaves [process_story] leads to [expand_story] whatever the
    queue holds.  On an empty queue [_process_story] returns the state as it
    is, and [_expand_story], called without a current story, records "No
    current story to expand"; neither calls the completion service or the
    tracker. *)
Theorem graph_has_no_end :
  (∀ n, ∃ n', successor n = Some n' ∧ (n, n') ∈ edges) ∧
  (∀ n', (process_story, n') ∈ edges → n' = expand_story) ∧
  (∀ st, stories st = [] → _process_story st = st) ∧
  (∀ st w, stories st = [] → current_story st = None →
     node_action sv ag process_story st w = (st, w) ∧
     node_action sv ag expand_story st w =
       (set_error st (Some "No current story to expand"), w)).
Proof.
  split; [| split; [| split]].
  - intros n. destruct n; eexists; (split; [reflexivity |]);
      unfold edges; rewrite !elem_of_cons; tauto.
  - intros n'. unfold edges. rewrite !elem_of_cons, elem_of_nil.
    intros [H | [H | [H | [H | [H | []]]]]]; by injection H.
  - intros st H. unfold _process_story. by rewrite H.
  - intros st w Hq Hc. simpl. unfold _process_story, _expand_story. by rewrite Hq, Hc.
Qed.

End WiringFacts.



(** The theorem of C3 at the initial state, whose queue is empty. *)
Lemma graph_has_no_end_witness :
  Agent.node_action Examples.services_ok (Examples.agent_of [] false) Agent.expand_story
    Agent.initial_state (Agent.initial_world (Examples.agent_of [] false))
  = (Agent.mkState [] None None None (Some "No current story to expand"),
     Agent.initial_world (Examples.agent_of [] false)).
Proof.
  destruct (graph_has_no_end Examples.services_ok (Examples.agent_of [] false))
    as (_ & _ & _ & H).
  destruct (H Agent.initial_state (Agent.initial_world (Examples.agent_of [] false))
              eq_refl eq_refl) as (_ & He).
  exact He.
Defined.

(** ** The completion client's single-call override *)

Section CompletionFacts.
Import LLM Examples.
Context (sv : Services).

Lemma client_idempotent (self : OpenAIClient) :
  client (snd (client self)) = client self.
Proof. unfold client. destruct self as [st m [c|]]; reflexivity. Qed.

Lemma get_set_max_tokens (self : OpenAIClient) (v : Z) :
  get_max_tokens (set_max_tokens self v) = v.
Proof. unfold get_max_tokens, set_max_tokens. by destruct (client self). Qed.

(** [agenerate] leaves the configured [max_tokens] as it is. *)
Lemma agenerate_max_tokens (self : OpenAIClient) (tr : list Event) (ms : list string) :
  get_max_tokens (snd (fst (agenerate sv self tr ms))) = get_max_tokens self.
Proof.
  unfold agenerate. destruct (client self) as [c self1] eqn:Hc.
  assert (get_max_tokens self1 = get_max_tokens self) as H.
  { unfold get_max_tokens. replace self1 with (snd (client self)) by by rewrite Hc.
    by rewrite client_idempotent. }
  repeat case_match; simpl; done.
Qed.

(** When the request succeeds, the value in force before the call is in
    force after it. *)
Lemma generate_completion_restores_on_success (self : OpenAIClient) (tr : list Event)
    (prompt : string) (max_tokens : option Z) :
  is_ok (fst (fst (generate_completion sv self tr prompt max_tokens))) = true →
  get_max_tokens (snd (fst (generate_completion sv self tr prompt max_tokens)))
  = get_max_tokens self.
Proof.
  unfold generate_completion.
  destruct (agenerate sv _ tr [prompt]) as [[[content|e] self3] tr3]; [| done].
  intros _. simpl. apply get_set_max_tokens.
Qed.

(** When the request fails, an override stays in force. *)
Lemma generate_completion_keeps_override_on_failure (self : OpenAIClient)
    (tr : list Event) (prompt : string) (v : Z) :
  v ≠ 0%Z →
  is_ok (fst (fst (generate_completion sv self tr prompt (Some v)))) = false →
  get_max_tokens (snd (fst (generate_completion sv self tr prompt (Some v)))) = v.
Proof.
  intros Hv. unfold generate_completion.
  destruct (Z.eqb_spec v 0) as [|_]; [done |]. simpl negb. cbv iota.
  pose proof (agenerate_max_tokens (set_max_tokens (snd (client self)) v) tr [prompt]) as H.
  destruct (agenerate sv _ tr [prompt]) as [[[content|e] self3] tr3]; [done |].
  intros _. simpl in *. by rewrite H, get_set_max_tokens.
Qed.

End CompletionFacts.

(** C9 (the code at a call that overrides [max_tokens] and fails). A new
    client has 1000 as its maximum; [generate_completion(prompt,
    max_tokens=50)] against a service that times out sends the request with
    50, raises, and leaves the client with 50: the line that restores the
    value is skipped when [agenerate] raises.  The same call against a
    service that answers leaves the client with 1000. *)
Theorem generate_completion_override_survives_failure :
  LLM.get_max_tokens (LLM.new Examples.env_settings "gpt-4") = 1000%Z ∧
  LLM.generate_completion Examples.services_expansion_fails
    (LLM.new Examples.env_settings "gpt-4") [] "Summarise the sprint" (Some 50%Z)
  = (Raise (mkExn "TimeoutError" "Request timed out."),
     LLM.mkOpenAIClient Examples.env_settings "gpt-4" (Some (LLM.mkChat "gpt-4" 50 30 3)),
     [EvLLM 50 ["Summarise the sprint"]]) ∧
  LLM.get_max_tokens (snd (fst (LLM.generate_completion Examples.services_expansion_fails
    (LLM.new Examples.env_settings "gpt-4") [] "Summarise the sprint" (Some 50%Z)))) = 50%Z ∧
  LLM.get_max_tokens (snd (fst (LLM.generate_completion Examples.services_ok
    (LLM.new Examples.env_settings "gpt-4") [] "Summarise the sprint" (Some 50%Z)))) = 1000%Z.
Proof. repeat split. Qed.

(** ** Further properties of the issue field derivation *)

Section DerivationMore.
Import Agent Examples.

Lemma prepare_issue_data_description (ag : JiraAgent) (story : StoryOutline) (e : string) :
  _prepare_issue_data ag story e !! "description" = Some (PStr e).
Proof. unfold _prepare_issue_data, global_of. payload_cases. Qed.

(** X1. The derived payload always holds a summary, a description and an
    issue type: the summary is the story's title, or "Generated Story" when
    the story has no title; the description is the expanded content as it is;
    the issue type is [{"name": t}] with the story's issue type, or "Story"
    when the story has none. *)
Theorem prepare_issue_data_core_fields (ag : JiraAgent) (story : StoryOutline)
    (e : string) :
  _prepare_issue_data ag story e !! "summary" =
    Some (PStr (default "Generated Story" (s_title story))) ∧
  _prepare_issue_data ag story e !! "description" = Some (PStr e) ∧
  _prepare_issue_data ag story e !! "issuetype" =
    Some (PDict {["name" := PStr (default "Story" (s_issue_type story))]}).
Proof.
  split; [apply prepare_issue_data_summary |].
  split; [apply prepare_issue_data_description | apply prepare_issue_data_issuetype].
Qed.

(** The epic the derivation resolves to: [story.get("epic",
    global.get("epic"))]. *)
Lemma prepare_issue_data_epic (ag : JiraAgent) (story : StoryOutline) (e : string) :
  _prepare_issue_data ag story e !! "customfield_10014" =
  match s_epic story with
  | Some k => if str_truthy k then Some (PStr k) else None
  | None =>
      match g_epic (global_of ag) with
      | Some k => if str_truthy k then Some (PStr k) else None
      | None => None
      end
  end.
Proof.
  unfold _prepare_issue_data, global_of.
  destruct (s_epic story) as [k|]; [| destruct (g_epic _) as [k|]];
    try destruct (str_truthy k); payload_cases.
Qed.

(** X2. The epic link: a story with a non-empty epic gets that epic under
    the key "customfield_10014"; a story without an epic key gets the global
    epic when that is non-empty; a story whose epic key is present and empty
    gets no epic link, whatever the global defaults say; and without any epic
    the key is left out. *)
Theorem prepare_issue_data_epic_link (ag : JiraAgent) (story : StoryOutline)
    (e : string) :
  (∀ k, s_epic story = Some k → k ≠ "" →
     _prepare_issue_data ag story e !! "customfield_10014" = Some (PStr k)) ∧
  (∀ k, s_epic story = None → g_epic (global_of ag) = Some k → k ≠ "" →
     _prepare_issue_data ag story e !! "customfield_10014" = Some (PStr k)) ∧
  (s_epic story = Some "" →
     _prepare_issue_data ag story e !! "customfield_10014" = None) ∧
  (s_epic story = None → g_epic (global_of ag) = None ∨ g_epic (global_of ag) = Some "" →
     _prepare_issue_data ag story e !! "customfield_10014" = None).
Proof.
  rewrite prepare_issue_data_epic. repeat split.
  - intros k -> Hk. unfold str_truthy. by destruct (String.eqb_spec k "").
  - intros k -> -> Hk. unfold str_truthy. by destruct (String.eqb_spec k "").
  - by intros ->.
  - by intros -> [-> | ->].
Qed.

End DerivationMore.

(** The epic rule at a story with the epic "OPS-7" and at a story with an
    empty epic under global defaults that give the epic "OPS-1". *)
Lemma prepare_issue_data_epic_link_witness :
  Agent._prepare_issue_data (Examples.agent_of [] false)
    (mkStory (Some "T") None None None None None None (Some "OPS-7")) "text"
    !! "customfield_10014" = Some (PStr "OPS-7") ∧
  Agent._prepare_issue_data
    (Agent.mkAgent (mkConfig (Some (mkGlobal None None None (Some "OPS-1"))) None) false
       Examples.env_settings)
    (mkStory (Some "T") None None None None None None (Some "")) "text"
    !! "customfield_10014" = None.
Proof.
  split.
  - destruct (prepare_issue_data_epic_link (Examples.agent_of [] false)
                (mkStory (Some "T") None None None None None None (Some "OPS-7")) "text")
      as (H & _).
    apply H; [reflexivity | discriminate].
  - destruct (prepare_issue_data_epic_link
                (Agent.mkAgent (mkConfig (Some (mkGlobal None None None (Some "OPS-1"))) None)
                   false Examples.env_settings)
                (mkStory (Some "T") None None None None None None (Some "")) "text")
      as (_ & _ & H & _).
    apply H. reflexivity.
Defined.

Section PayloadKeys.
Import Agent.

(** X3. The keys of a derived payload: project, summary, description and
    issuetype are always there, and the only other keys a payload can hold
    are labels, components and customfield_10014. *)
Theorem prepare_issue_data_keys (ag : JiraAgent) (story : StoryOutline) (e : string) :
  ({["project"; "summary"; "description"; "issuetype"]} : gset string)
    ⊆ dom (_prepare_issue_data ag story e) ∧
  dom (_prepare_issue_data ag story e) ⊆
    ({["project"; "summary"; "description"; "issuetype";
       "labels"; "components"; "customfield_10014"]} : gset string).
Proof.
  unfold _prepare_issue_data.
  destruct (default _ (s_labels story)) as [|x l];
    destruct (default _ (s_components story)) as [|y m];
    simpl; repeat case_match; rewrite ?dom_insert_L, dom_empty_L; set_solver.
Qed.

End PayloadKeys.


(** ** The completion client, call by call *)

Section AgenerateFacts.
Import LLM Outcome Examples.
Context (sv : Services).

Lemma get_max_tokens_client (self : OpenAIClient) :
  get_max_tokens (snd (client self)) = get_max_tokens self.
Proof. unfold get_max_tokens. by rewrite client_idempotent. Qed.

(** [agenerate] in one equation: the outcome read off the service's answer,
    the client with its cache filled, and the trace with the request added. *)
Lemma agenerate_eq (self : OpenAIClient) (tr : list Event) (ms : list string) :
  agenerate sv self tr ms =
  (first_candidate (llm_api sv (List.length (llm_calls tr)) (get_max_tokens self) ms),
   snd (client self),
   (tr ++ [EvLLM (get_max_tokens self) ms])%list).
Proof.
  unfold agenerate, get_max_tokens. destruct (client self) as [c self1]. simpl.
  destruct (llm_api sv _ _ ms) as [[|[|text alts] more]|e]; reflexivity.
Qed.

(** X4. Every call of [agenerate] sends exactly one request, with the
    client's current [max_tokens], whatever the outcome; it returns a text
    exactly when the service answered with a first batch that has a first
    candidate, and that text is the candidate's; an answer without candidates
    is the error "Empty response from OpenAI", and an exception of the service
    is passed on as it is. *)
Theorem agenerate_outcomes (self : OpenAIClient) (tr : list Event) (ms : list string) :
  snd (agenerate sv self tr ms) = (tr ++ [EvLLM (get_max_tokens self) ms])%list ∧
  List.length (llm_calls (snd (agenerate sv self tr ms))) = S (List.length (llm_calls tr)) ∧
  (∀ text, fst (fst (agenerate sv self tr ms)) = Ok text ↔
     ∃ alts more, llm_api sv (List.length (llm_calls tr)) (get_max_tokens self) ms
                  = Ok ((text :: alts) :: more)) ∧
  (∀ e, llm_api sv (List.length (llm_calls tr)) (get_max_tokens self) ms = Raise e →
     fst (fst (agenerate sv self tr ms)) = Raise e) ∧
  (∀ more, llm_api sv (List.length (llm_calls tr)) (get_max_tokens self) ms = Ok ([] :: more)
           ∨ llm_api sv (List.length (llm_calls tr)) (get_max_tokens self) ms = Ok [] →
     fst (fst (agenerate sv self tr ms)) = Raise (ValueError "Empty response from OpenAI")).
Proof.
  rewrite agenerate_eq. simpl. split; [done |]. split.
  { unfold llm_calls. rewrite List.filter_app, length_app. simpl. lia. }
  split; [| split].
  - intros text. unfold first_candidate.
    destruct (llm_api sv _ _ ms) as [[|[|t alts] more]|e]; split;
      try (intros (? & ? & ?)); try done.
    + intros [= ->]. eauto.
    + congruence.
  - by intros e ->.
  - by intros more [-> | ->].
Qed.

End AgenerateFacts.

(** [agenerate_outcomes] at a new client and a service that answers. *)
Lemma agenerate_outcomes_witness :
  fst (fst (LLM.agenerate Examples.services_ok (LLM.new Examples.env_settings "gpt-4") []
              ["Hello"])) = Ok "As a user, I want ...".
Proof.
  destruct (agenerate_outcomes Examples.services_ok (LLM.new Examples.env_settings "gpt-4") []
              ["Hello"]) as (_ & _ & H & _).
  apply H. exists [], []. reflexivity.
Defined.

Section CompletionMore.
Import LLM Outcome Completion Examples.
Context (sv : Services).

(** The client object is created once: a second read of the property gives
    the same object and leaves the client as it is. *)
Lemma client_cached (self : OpenAIClient) :
  client (snd (client self)) = (fst (client self), snd (client self)).
Proof. unfold client. destruct self as [st m [c|]]; reflexivity. Qed.

(** X5. The [ChatOpenAI] object is built on the first use, with 1000 as its
    maximum of output tokens and the timeout and the retry count of the
    settings, and it is cached: reading the property again gives the same
    object and changes nothing. *)
Theorem client_created_once (st : AppSettings) (model : string) (self : OpenAIClient) :
  fst (client (new st model)) = mkChat model 1000 (timeout_seconds st) (max_retries st) ∧
  _client (snd (client self)) = Some (fst (client self)) ∧
  client (snd (client self)) = (fst (client self), snd (client self)) ∧
  (∀ c, _client self = Some c → client self = (c, self)).
Proof.
  split; [reflexivity |]. split; [| split; [apply client_cached |]].
  - unfold client. by destruct self as [s m [c|]].
  - intros c H. unfold client. by rewrite H.
Qed.

(** [generate_completion] in one equation. *)
Lemma generate_completion_eq (self : OpenAIClient) (tr : list Event) (prompt : string)
    (max_tokens : option Z) :
  let used :=
    match max_tokens with
    | Some v => if Z.eqb v 0 then get_max_tokens self else v
    | None => get_max_tokens self
    end in
  let outcome := first_candidate (llm_api sv (List.length (llm_calls tr)) used [prompt]) in
  fst (fst (generate_completion sv self tr prompt max_tokens)) = outcome ∧
  snd (generate_completion sv self tr prompt max_tokens) = (tr ++ [EvLLM used [prompt]])%list ∧
  get_max_tokens (snd (fst (generate_completion sv self tr prompt max_tokens))) =
    (if is_ok outcome then get_max_tokens self else used).
Proof.
  unfold generate_completion. rewrite agenerate_eq.
  assert (get_max_tokens
            match max_tokens with
            | Some v => if negb (Z.eqb v 0) then set_max_tokens (snd (client self)) v
                        else snd (client self)
            | None => snd (client self)
            end =
          match max_tokens with
          | Some v => if Z.eqb v 0 then get_max_tokens self else v
          | None => get_max_tokens self
          end) as ->.
  { destruct max_tokens as [v|]; [destruct (Z.eqb v 0) |]; simpl;
      by rewrite ?get_set_max_tokens, ?get_max_tokens_client. }
  simpl. destruct (first_candidate _) as [content|e]; simpl.
  - by rewrite get_set_max_tokens.
  - split; [done | split; [done |]]. rewrite get_max_tokens_client.
    destruct max_tokens as [v|]; [destruct (Z.eqb v 0) |]; simpl;
      by rewrite ?get_set_max_tokens, ?get_max_tokens_client.
Qed.

(** X6. A call of [generate_completion] without an override ([max_tokens]
    omitted or 0) sends its one request with the client's own maximum and
    leaves that maximum as it is, whether the request succeeds or fails. *)
Theorem generate_completion_without_override (self : OpenAIClient) (tr : list Event)
    (prompt : string) (max_tokens : option Z) :
  max_tokens = None ∨ max_tokens = Some 0%Z →
  snd (generate_completion sv self tr prompt max_tokens)
    = (tr ++ [EvLLM (get_max_tokens self) [prompt]])%list ∧
  get_max_tokens (snd (fst (generate_completion sv self tr prompt max_tokens)))
    = get_max_tokens self.
Proof.
  intros H. destruct (generate_completion_eq self tr prompt max_tokens) as (_ & Ht & Hm).
  rewrite Ht, Hm. destruct H as [-> | ->]; simpl; by destruct (is_ok _).
Qed.

(** X7. A call of [generate_completion] with an override other than 0
    sends its one request with the override as the maximum of output
    tokens. *)
Theorem generate_completion_sends_override (self : OpenAIClient) (tr : list Event)
    (prompt : string) (v : Z) :
  v ≠ 0%Z →
  snd (generate_completion sv self tr prompt (Some v)) = (tr ++ [EvLLM v [prompt]])%list ∧
  fst (fst (generate_completion sv self tr prompt (Some v))) =
    first_candidate (llm_api sv (List.length (llm_calls tr)) v [prompt]).
Proof.
  intros Hv. destruct (generate_completion_eq self tr prompt (Some v)) as (Ho & Ht & _).
  rewrite Ho, Ht. simpl. by destruct (Z.eqb_spec v 0).
Qed.

(** X8. [generate_story_expansion] and [generate_completion] without an
    override are the same operation: the same result, the same request and
    the same client afterwards. *)
Theorem generate_story_expansion_is_plain_completion (self : OpenAIClient)
    (tr : list Event) (prompt : string) :
  fst (fst (generate_story_expansion sv self tr prompt))
    = fst (fst (generate_completion sv self tr prompt None)) ∧
  snd (generate_story_expansion sv self tr prompt)
    = snd (generate_completion sv self tr prompt None) ∧
  get_max_tokens (snd (fst (generate_story_expansion sv self tr prompt)))
    = get_max_tokens (snd (fst (generate_completion sv self tr prompt None))).
Proof.
  destruct (generate_completion_eq self tr prompt None) as (Ho & Ht & Hm).
  rewrite Ho, Ht, Hm. unfold generate_story_expansion. rewrite agenerate_eq.
  destruct (first_candidate _) as [c|e]; simpl; by rewrite get_max_tokens_client.
Qed.

End CompletionMore.

(** [generate_completion_without_override] at a client whose maximum has
    been set to 200 and a service that times out. *)
Lemma generate_completion_without_override_witness :
  LLM.get_max_tokens (snd (fst (LLM.generate_completion Examples.services_expansion_fails
    (LLM.set_max_tokens (LLM.new Examples.env_settings "gpt-4") 200) [] "Hello" (Some 0%Z))))
  = 200%Z.
Proof.
  destruct (generate_completion_without_override Examples.services_expansion_fails
              (LLM.set_max_tokens (LLM.new Examples.env_settings "gpt-4") 200) [] "Hello"
              (Some 0%Z) (or_intror eq_refl)) as (_ & H).
  exact H.
Defined.

(** [generate_completion_sends_override] at an override of 50. *)
Lemma generate_completion_sends_override_witness :
  snd (LLM.generate_completion Examples.services_ok
         (LLM.new Examples.env_settings "gpt-4") [] "Hello" (Some 50%Z))
  = [EvLLM 50 ["Hello"]].
Proof.
  destruct (generate_completion_sends_override Examples.services_ok
              (LLM.new Examples.env_settings "gpt-4") [] "Hello" 50%Z ltac:(discriminate))
    as (H & _).
  exact H.
Defined.

(** X9. When the request of [generate_completion] succeeds, the maximum of
    output tokens in force before the call is in force after it, whatever the
    override was. *)
Theorem generate_completion_restores_prior_value (sv : Services) (self : LLM.OpenAIClient)
    (tr : list Event) (prompt : string) (max_tokens : option Z) (content : string) :
  fst (fst (LLM.generate_completion sv self tr prompt max_tokens)) = Ok content →
  LLM.get_max_tokens (snd (fst (LLM.generate_completion sv self tr prompt max_tokens)))
  = LLM.get_max_tokens self.
Proof.
  intros H. destruct (generate_completion_eq sv self tr prompt max_tokens) as (Ho & _ & Hm).
  rewrite Hm. rewrite Ho in H. by rewrite H.
Qed.

(** [generate_completion_restores_prior_value] at an override of 50 and a
    service that answers. *)
Lemma generate_completion_restores_prior_value_witness :
  LLM.get_max_tokens (snd (fst (LLM.generate_completion Examples.services_ok
    (LLM.new Examples.env_settings "gpt-4") [] "Hello" (Some 50%Z)))) = 1000%Z.
Proof.
  apply (generate_completion_restores_prior_value Examples.services_ok
           (LLM.new Examples.env_settings "gpt-4") [] "Hello" (Some 50%Z)
           "As a user, I want ...").
  reflexivity.
Defined.

(** ** The nodes of the controller, one by one *)

Section NodeFacts.
Import Agent Outcome Examples.
Context (sv : Services).

(** [_expand_story] on a state with a story, in one equation. *)
Lemma expand_story_eq (st : AgentState) (w : World) (story : StoryOutline)
    (prompt : string) :
  current_story st = Some story → story_truthy story = true →
  Prompt.generate_expansion_prompt story = Ok prompt →
  _expand_story sv st w =
  let w' := mkWorld (trace w ++ [EvLLM (LLM.get_max_tokens (llm_client w)) [prompt]])%list
              (snd (LLM.client (llm_client w))) in
  match first_candidate (llm_api sv (List.length (llm_calls (trace w)))
                           (LLM.get_max_tokens (llm_client w)) [prompt]) with
  | Ok content => (set_expanded_story st (Some content), w')
  | Raise e => (set_error st (Some ("Error expanding story: " ++ exn_msg e)), w')
  end.
Proof.
  intros Hc Ht Hp. unfold _expand_story. rewrite Hc, Ht, Hp, agenerate_eq.
  by destruct (first_candidate _).
Qed.

(** X10. When the completion service fails for the current story (it
    raises, or it answers without a candidate), [_expand_story] records
    "Error expanding story: " followed by the text of the exception (for an
    answer without a candidate: "Empty response from OpenAI"), after exactly
    one request; it leaves the queue, the current story, the expanded story
    and the issue of the state as they were. *)
Theorem expand_story_records_failure (st : AgentState) (w : World) (story : StoryOutline)
    (prompt : string) (e : Exn) :
  current_story st = Some story → story_truthy story = true →
  Prompt.generate_expansion_prompt story = Ok prompt →
  first_candidate (llm_api sv (List.length (llm_calls (trace w)))
                     (LLM.get_max_tokens (llm_client w)) [prompt]) = Raise e →
  _expand_story sv st w =
  (mkState (stories st) (current_story st) (expanded_story st) (jira_issue st)
     (Some ("Error expanding story: " ++ exn_msg e)),
   mkWorld (trace w ++ [EvLLM (LLM.get_max_tokens (llm_client w)) [prompt]])%list
     (snd (LLM.client (llm_client w)))).
Proof.
  intros Hc Ht Hp He. rewrite (expand_story_eq st w story prompt Hc Ht Hp). simpl.
  by rewrite He.
Qed.

(** X11. Without a current story, and also when the current story is the
    empty mapping, [_expand_story] records "No current story to expand" and
    sends nothing to the completion service. *)
Theorem expand_story_without_story (st : AgentState) (w : World) :
  opt_story_truthy (current_story st) = false →
  _expand_story sv st w = (set_error st (Some "No current story to expand"), w).
Proof.
  unfold _expand_story, opt_story_truthy.
  destruct (current_story st) as [story|]; [| done]. by intros ->.
Qed.

(** X12. An empty text from the completion service is stored as the
    expanded story and then stopped at the submit step: [_create_jira_issue]
    records "Missing expanded story or current story", derives nothing and
    sends nothing to the tracker. *)
Theorem empty_completion_is_not_submitted (ag : JiraAgent) (st : AgentState) (w : World)
    (story : StoryOutline) (prompt : string) (alts : list string)
    (more : list (list string)) :
  current_story st = Some story → story_truthy story = true →
  opt_str_truthy (error st) = false →
  Prompt.generate_expansion_prompt story = Ok prompt →
  llm_api sv (List.length (llm_calls (trace w))) (LLM.get_max_tokens (llm_client w)) [prompt]
    = Ok (("" :: alts) :: more) →
  expanded_story (fst (_expand_story sv st w)) = Some "" ∧
  _create_jira_issue sv ag (fst (_expand_story sv st w)) (snd (_expand_story sv st w)) =
    (set_error (fst (_expand_story sv st w))
       (Some "Missing expanded story or current story"),
     snd (_expand_story sv st w)).
Proof.
  intros Hc Ht He Hp Hl. rewrite (expand_story_eq st w story prompt Hc Ht Hp). simpl.
  rewrite Hl. simpl. split; [done |].
  unfold _create_jira_issue. simpl. by rewrite He, Hc.
Qed.

(** The submit step of a real run on a state that passes the guards, in one
    equation. *)
Lemma create_jira_issue_real_eq (ag : JiraAgent) (st : AgentState) (w : World)
    (story : StoryOutline) (expanded : string) :
  dry_run ag = false → opt_str_truthy (error st) = false →
  current_story st = Some story → expanded_story st = Some expanded →
  str_truthy expanded = true → story_truthy story = true →
  _create_jira_issue sv ag st w =
  let payload := _prepare_issue_data ag story expanded in
  let w' := mkWorld (trace w ++ [EvDerive story expanded; EvJiraCreate payload])%list
              (llm_client w) in
  match jira_api sv (List.length (jira_calls (trace w))) payload with
  | Ok issue =>
      (set_jira_issue st (Some (created_issue (settings ag) issue
         (PStr (default "Generated Story" (s_title story)))
         (PStr (default (default (jira_project_key (settings ag))
                           (g_project (global_of ag))) (s_project story))))), w')
  | Raise e => (set_error st (Some ("Error creating JIRA issue: " ++ exn_msg e)), w')
  end.
Proof.
  intros Hd He Hc Hx Hxt Hst. unfold _create_jira_issue.
  rewrite He, Hc, Hx, Hxt, Hst, Hd. simpl.
  unfold Jira.create_issue. rewrite prepare_issue_data_valid.
  rewrite jira_calls_app. simpl. rewrite app_nil_r.
  unfold Jira.project_key_of, Jira.get.
  rewrite prepare_issue_data_project, prepare_issue_data_summary. simpl.
  rewrite <- !app_assoc. simpl.
  by destruct (jira_api sv _ _).
Qed.

(** X13. In a real run, from a state that passes the guards, the submit
    step derives the payload and sends it to the tracker in one request; when
    the tracker creates the issue, the state records its key, id, browse URL
    ([jira_url/browse/key]), the summary and the project key of the payload,
    and the error indicator, the queue, the current story and the expanded
    story stay as they were. *)
Theorem create_jira_issue_records_issue (ag : JiraAgent) (st : AgentState) (w : World)
    (story : StoryOutline) (expanded : string) (issue : Issue) :
  dry_run ag = false → opt_str_truthy (error st) = false →
  current_story st = Some story → expanded_story st = Some expanded →
  str_truthy expanded = true → story_truthy story = true →
  jira_api sv (List.length (jira_calls (trace w))) (_prepare_issue_data ag story expanded)
    = Ok issue →
  ∃ created,
    _create_jira_issue sv ag st w =
      (mkState (stories st) (current_story st) (expanded_story st) (Some created) (error st),
       mkWorld (trace w ++ [EvDerive story expanded;
                            EvJiraCreate (_prepare_issue_data ag story expanded)])%list
         (llm_client w)) ∧
    created !! "key" = Some (PStr (issue_key issue)) ∧
    created !! "id" = Some (PStr (issue_id issue)) ∧
    created !! "url" = Some (PStr (jira_url (settings ag) ++ "/browse/" ++ issue_key issue)) ∧
    created !! "summary" = Some (PStr (default "Generated Story" (s_title story))) ∧
    created !! "project" =
      Some (PStr (default (default (jira_project_key (settings ag))
                             (g_project (global_of ag))) (s_project story))).
Proof.
  intros Hd He Hc Hx Hxt Hst Hj.
  rewrite (create_jira_issue_real_eq ag st w story expanded Hd He Hc Hx Hxt Hst). simpl.
  rewrite Hj. eexists. split; [reflexivity |]. unfold created_issue.
  repeat split; by simplify_map_eq.
Qed.

(** X14. In a real run, when the tracker refuses the request, the submit
    step records "Error creating JIRA issue: " followed by the text of the
    exception, after the one request, and leaves the issue of the state as it
    was (the issue of an earlier story stays in place). *)
Theorem create_jira_issue_records_failure (ag : JiraAgent) (st : AgentState) (w : World)
    (story : StoryOutline) (expanded : string) (e : Exn) :
  dry_run ag = false → opt_str_truthy (error st) = false →
  current_story st = Some story → expanded_story st = Some expanded →
  str_truthy expanded = true → story_truthy story = true →
  jira_api sv (List.length (jira_calls (trace w))) (_prepare_issue_data ag story expanded)
    = Raise e →
  _create_jira_issue sv ag st w =
    (mkState (stories st) (current_story st) (expanded_story st) (jira_issue st)
       (Some ("Error creating JIRA issue: " ++ exn_msg e)),
     mkWorld (trace w ++ [EvDerive story expanded;
                          EvJiraCreate (_prepare_issue_data ag story expanded)])%list
       (llm_client w)).
Proof.
  intros Hd He Hc Hx Hxt Hst Hj.
  rewrite (create_jira_issue_real_eq ag st w story expanded Hd He Hc Hx Hxt Hst). simpl.
  by rewrite Hj.
Qed.

(** X15. [_handle_error] is idempotent, never touches the queue, and leaves
    no error behind; on a state without an error it changes nothing. *)
Theorem handle_error_idempotent (st : AgentState) :
  _handle_error (_handle_error st) = _handle_error st ∧
  stories (_handle_error st) = stories st ∧
  opt_str_truthy (error (_handle_error st)) = false ∧
  (opt_str_truthy (error st) = false → _handle_error st = st).
Proof.
  unfold _handle_error. destruct (opt_str_truthy (error st)) eqn:He; simpl.
  - done.
  - by rewrite He.
Qed.

End NodeFacts.

(** [expand_story_records_failure] at story A, dequeued, with a completion
    service that times out. *)
Lemma expand_story_records_failure_witness :
  ∃ prompt,
    Agent._expand_story Examples.services_expansion_fails
      (Agent.mkState [] (Some Examples.story_a) None None None)
      (Agent.initial_world (Examples.agent_of [] false))
    = (Agent.mkState [] (Some Examples.story_a) None None
         (Some "Error expanding story: Request timed out."),
       Agent.mkWorld [EvLLM 1000 [prompt]]
         (snd (LLM.client (LLM.new Examples.env_settings "gpt-4")))).
Proof.
  eexists.
  apply (expand_story_records_failure Examples.services_expansion_fails
           (Agent.mkState [] (Some Examples.story_a) None None None)
           (Agent.initial_world (Examples.agent_of [] false)) Examples.story_a _
           (mkExn "TimeoutError" "Request timed out.")); reflexivity.
Defined.

(** [expand_story_without_story] at a state whose current story is the
    empty mapping. *)
Lemma expand_story_without_story_witness :
  Agent._expand_story Examples.services_ok
    (Agent.mkState [] (Some empty_story) None None None)
    (Agent.initial_world (Examples.agent_of [] false))
  = (Agent.mkState [] (Some empty_story) None None (Some "No current story to expand"),
     Agent.initial_world (Examples.agent_of [] false)).
Proof.
  apply (expand_story_without_story Examples.services_ok
           (Agent.mkState [] (Some empty_story) None None None)).
  reflexivity.
Defined.

(** [empty_completion_is_not_submitted] at story A and a completion service
    that answers with the empty text. *)
Lemma empty_completion_is_not_submitted_witness :
  Agent.error (fst (Agent._create_jira_issue
    (mkServices (λ _ _ _, Ok [[""]]) (jira_api Examples.services_ok))
    (Examples.agent_of [] false)
    (fst (Agent._expand_story (mkServices (λ _ _ _, Ok [[""]]) (jira_api Examples.services_ok))
       (Agent.mkState [] (Some Examples.story_a) None None None)
       (Agent.initial_world (Examples.agent_of [] false))))
    (snd (Agent._expand_story (mkServices (λ _ _ _, Ok [[""]]) (jira_api Examples.services_ok))
       (Agent.mkState [] (Some Examples.story_a) None None None)
       (Agent.initial_world (Examples.agent_of [] false))))))
  = Some "Missing expanded story or current story".
Proof.
  destruct (empty_completion_is_not_submitted
              (mkServices (λ _ _ _, Ok [[""]]) (jira_api Examples.services_ok))
              (Examples.agent_of [] false)
              (Agent.mkState [] (Some Examples.story_a) None None None)
              (Agent.initial_world (Examples.agent_of [] false))
              Examples.story_a _ [] [] eq_refl eq_refl eq_refl eq_refl eq_refl) as (_ & ->).
  reflexivity.
Defined.

(** [create_jira_issue_records_issue] at story A, expanded, in a real run
    with a tracker that accepts. *)
Lemma create_jira_issue_records_issue_witness :
  ∃ created,
    Agent.jira_issue (fst (Agent._create_jira_issue Examples.services_ok
      (Examples.agent_of [] false) (Examples.ready_state Examples.story_a)
      (Agent.initial_world (Examples.agent_of [] false)))) = Some created ∧
    created !! "key" = Some (PStr "OPS-1") ∧
    created !! "url" = Some (PStr "https://jira.example/browse/OPS-1") ∧
    created !! "project" = Some (PStr "WEB").
Proof.
  destruct (create_jira_issue_records_issue Examples.services_ok
              (Examples.agent_of [] false) (Examples.ready_state Examples.story_a)
              (Agent.initial_world (Examples.agent_of [] false))
              Examples.story_a "As a user, I want ..." (mkIssue "OPS-1" "10001")
              eq_refl eq_refl eq_refl eq_refl eq_refl eq_refl eq_refl)
    as (created & -> & Hk & _ & Hu & _ & Hp).
  exists created. split; [reflexivity |]. split; [exact Hk |]. split; [exact Hu | exact Hp].
Defined.

(** [create_jira_issue_records_failure] at story A, expanded, in a real run
    with a tracker that refuses. *)
Lemma create_jira_issue_records_failure_witness :
  Agent.error (fst (Agent._create_jira_issue
    (mkServices (llm_api Examples.services_ok)
       (λ _ _, Raise (mkExn "JIRAError" "project is required")))
    (Examples.agent_of [] false) (Examples.ready_state Examples.story_a)
    (Agent.initial_world (Examples.agent_of [] false))))
  = Some "Error creating JIRA issue: project is required".
Proof.
  rewrite (create_jira_issue_records_failure
             (mkServices (llm_api Examples.services_ok)
                (λ _ _, Raise (mkExn "JIRAError" "project is required")))
             (Examples.agent_of [] false) (Examples.ready_state Examples.story_a)
             (Agent.initial_world (Examples.agent_of [] false))
             Examples.story_a "As a user, I want ..."
             (mkExn "JIRAError" "project is required")
             eq_refl eq_refl eq_refl eq_refl eq_refl eq_refl eq_refl).
  reflexivity.
Defined.

(** ** The project on its way to the tracker *)

Section ProjectFacts.
Import Agent Outcome Examples.
Context (sv : Services).


(** X16. The first story, step by step: when the configuration starts with
    a story that is not the empty mapping, the completion service answers its
    prompt with a non-empty text and the tracker creates the issue, then
    loading, dequeuing, expanding and submitting, one after the other from the
    initial state of a real run, leave the rest of the queue waiting, the
    story current and expanded, the created issue recorded and no error set,
    after exactly one request to each service. *)
Theorem first_story_is_submitted (ag : JiraAgent) (story : StoryOutline)
    (rest : list StoryOutline) (prompt text : string) (alts : list string)
    (more : list (list string)) (issue : Issue) :
  cfg_stories (config ag) = Some (story :: rest) → story_truthy story = true →
  dry_run ag = false →
  Prompt.generate_expansion_prompt story = Ok prompt →
  llm_api sv 0 1000 [prompt] = Ok ((text :: alts) :: more) → str_truthy text = true →
  jira_api sv 0 (_prepare_issue_data ag story text) = Ok issue →
  _create_jira_issue sv ag
    (fst (_expand_story sv (_process_story (_load_stories ag initial_state))
            (initial_world ag)))
    (snd (_expand_story sv (_process_story (_load_stories ag initial_state))
            (initial_world ag)))
  = (mkState rest (Some story) (Some text)
       (Some (created_issue (settings ag) issue
          (PStr (default "Generated Story" (s_title story)))
          (PStr (default (default (jira_project_key (settings ag))
                            (g_project (global_of ag))) (s_project story)))))
       None,
     mkWorld [EvLLM 1000 [prompt]; EvDerive story text;
              EvJiraCreate (_prepare_issue_data ag story text)]
       (snd (LLM.client (LLM.new (settings ag) "gpt-4")))).
Proof.
  intros Hq Ht Hd Hp Hl Htt Hj.
  set (w3 := mkWorld [EvLLM 1000 [prompt]]
               (snd (LLM.client (LLM.new (settings ag) "gpt-4")))).
  assert (_process_story (_load_stories ag initial_state)
          = mkState rest (Some story) None None None) as ->.
  { unfold _load_stories. by rewrite Hq. }
  assert (_expand_story sv (mkState rest (Some story) None None None) (initial_world ag)
          = (mkState rest (Some story) (Some text) None None, w3)) as ->.
  { rewrite (expand_story_eq sv (mkState rest (Some story) None None None)
               (initial_world ag) story prompt eq_refl Ht Hp).
    assert (llm_api sv (List.length (llm_calls (trace (initial_world ag))))
              (LLM.get_max_tokens (llm_client (initial_world ag))) [prompt]
            = Ok ((text :: alts) :: more)) as -> by exact Hl.
    reflexivity. }
  simpl fst. simpl snd.
  rewrite (create_jira_issue_real_eq sv ag
             (mkState rest (Some story) (Some text) None None) w3 story text
             Hd eq_refl eq_refl eq_refl Htt Ht).
  assert (jira_api sv (List.length (jira_calls (trace w3)))
            (_prepare_issue_data ag story text) = Ok issue) as Hj' by exact Hj.
  cbv zeta. rewrite Hj'. reflexivity.
Qed.

End ProjectFacts.


(** [first_story_is_submitted] at the configuration of stories A and B with
    services that answer. *)
Lemma first_story_is_submitted_witness :
  ∃ prompt,
    Agent.trace (snd (Agent._create_jira_issue Examples.services_ok
      (Examples.agent_of [Examples.story_a; Examples.story_b] false)
      (fst (Agent._expand_story Examples.services_ok
         (Agent._process_story (Agent._load_stories
            (Examples.agent_of [Examples.story_a; Examples.story_b] false)
            Agent.initial_state))
         (Agent.initial_world (Examples.agent_of [Examples.story_a; Examples.story_b] false))))
      (snd (Agent._expand_story Examples.services_ok
         (Agent._process_story (Agent._load_stories
            (Examples.agent_of [Examples.story_a; Examples.story_b] false)
            Agent.initial_state))
         (Agent.initial_world
            (Examples.agent_of [Examples.story_a; Examples.story_b] false)))))) =
    [EvLLM 1000 [prompt]; EvDerive Examples.story_a "As a user, I want ...";
     EvJiraCreate (Agent._prepare_issue_data
                     (Examples.agent_of [Examples.story_a; Examples.story_b] false)
                     Examples.story_a "As a user, I want ...")].
Proof.
  eexists.
  rewrite (first_story_is_submitted Examples.services_ok
             (Examples.agent_of [Examples.story_a; Examples.story_b] false)
             Examples.story_a [Examples.story_b] _ "As a user, I want ..." [] []
             (mkIssue "OPS-1" "10001")
             eq_refl eq_refl eq_refl eq_refl eq_refl eq_refl eq_refl).
  reflexivity.
Defined.

(** ** The tracker client beyond the required fields *)

Section JiraMore.
Import Jira JiraSearch Outcome Examples.
Context (sv : Services) (st : AppSettings).

Lemma check_required_ok_iff (issue_data : gmap string PyVal) :
  check_required required_fields issue_data = Ok tt ↔
  is_Some (issue_data !! "project") ∧ is_Some (issue_data !! "summary")
  ∧ is_Some (issue_data !! "issuetype").
Proof.
  unfold required_fields, check_required, not_in.
  destruct (issue_data !! "project"), (issue_data !! "summary"),
    (issue_data !! "issuetype"); split; try done;
    intros (H1 & H2 & H3); by (destruct H1 || destruct H2 || destruct H3).
Qed.

Lemma not_dict_with_false (key : string) (v : PyVal) :
  not_dict_with key v = false ↔ ∃ d, v = PDict d ∧ is_Some (d !! key).
Proof.
  unfold not_dict_with, not_in. destruct v as [| | | |d]; split; try done;
    try (intros (? & ? & ?); done).
  - destruct (d !! key) eqn:H; [| done]. intros _. exists d. by rewrite H.
  - intros (d' & [= <-] & [x Hx]). by rewrite Hx.
Qed.

Lemma validate_issue_data_ok_iff_aux (issue_data : gmap string PyVal) :
  _validate_issue_data issue_data = Ok tt ↔
  (∃ p, issue_data !! "project" = Some (PDict p) ∧ is_Some (p !! "key")) ∧
  is_Some (issue_data !! "summary") ∧
  (∃ t, issue_data !! "issuetype" = Some (PDict t) ∧ is_Some (t !! "name")).
Proof.
  unfold _validate_issue_data. split.
  - destruct (check_required required_fields issue_data) as [[]|e] eqn:Hr; [| done].
    apply check_required_ok_iff in Hr as ([p Hp] & Hs & [t Ht]). simpl.
    rewrite Hp, Ht. simpl.
    destruct (not_dict_with "key" p) eqn:Hk; [done |].
    destruct (not_dict_with "name" t) eqn:Hn; [done |]. intros _.
    apply not_dict_with_false in Hk as (d & -> & Hd).
    apply not_dict_with_false in Hn as (d' & -> & Hd'). eauto 10.
  - intros ((p & Hp & [k Hk]) & Hs & (t & Ht & [n Hn])).
    assert (check_required required_fields issue_data = Ok tt) as ->.
    { apply check_required_ok_iff. rewrite Hp, Ht. eauto. }
    simpl. rewrite Hp, Ht. simpl. unfold not_in. by rewrite Hk, Hn.
Qed.

(** X17. The validation accepts a payload exactly when it has a summary, a
    project that is a mapping with a "key" entry and an issue type that is a
    mapping with a "name" entry.  The values themselves are not looked at: an
    empty summary or an empty project key passes. *)
Theorem validate_issue_data_ok_iff (issue_data : gmap string PyVal) :
  _validate_issue_data issue_data = Ok tt ↔
  (∃ p, issue_data !! "project" = Some (PDict p) ∧ is_Some (p !! "key")) ∧
  is_Some (issue_data !! "summary") ∧
  (∃ t, issue_data !! "issuetype" = Some (PDict t) ∧ is_Some (t !! "name")).
Proof. apply validate_issue_data_ok_iff_aux. Qed.

(** X18. The order of the validation errors: with all three required keys
    present, a project that is not a mapping with a "key" entry is reported
    first, as "Project must be a dictionary with 'key' field"; an issue type
    that is not a mapping with a "name" entry is reported only when the
    project is well formed, as "Issue type must be a dictionary with 'name'
    field".  In both cases [create_issue] raises the error without sending
    anything. *)
Theorem validate_issue_data_format_errors (tr : list Event)
    (issue_data : gmap string PyVal) (p s t : PyVal) :
  issue_data !! "project" = Some p → issue_data !! "summary" = Some s →
  issue_data !! "issuetype" = Some t →
  (not_dict_with "key" p = true →
   create_issue sv st tr issue_data =
   (Raise (ValueError "Project must be a dictionary with 'key' field"), tr)) ∧
  (not_dict_with "key" p = false → not_dict_with "name" t = true →
   create_issue sv st tr issue_data =
   (Raise (ValueError "Issue type must be a dictionary with 'name' field"), tr)).
Proof.
  intros Hp Hs Ht.
  assert (check_required required_fields issue_data = Ok tt) as Hr.
  { apply check_required_ok_iff. rewrite Hp, Hs, Ht. eauto. }
  split.
  - intros Hk. apply create_issue_invalid. unfold _validate_issue_data.
    rewrite Hr. simpl. by rewrite Hp; simpl; rewrite Hk.
  - intros Hk Hn. apply create_issue_invalid. unfold _validate_issue_data.
    rewrite Hr. simpl. rewrite Hp, Ht. simpl. by rewrite Hk, Hn.
Qed.

(** [create_issue] on a payload that passes the validation, in one
    equation. *)
Lemma create_issue_valid_eq (tr : list Event) (issue_data : gmap string PyVal)
    (p : gmap string PyVal) :
  _validate_issue_data issue_data = Ok tt → issue_data !! "project" = Some (PDict p) →
  create_issue sv st tr issue_data =
  (match jira_api sv (List.length (jira_calls tr)) issue_data with
   | Ok issue => Ok (created_issue st issue (get issue_data "summary") (get p "key"))
   | Raise e => Raise e
   end, (tr ++ [EvJiraCreate issue_data])%list).
Proof.
  intros Hv Hp. unfold create_issue, project_key_of. rewrite Hv, Hp. simpl.
  by destruct (jira_api sv _ _).
Qed.

(** X19. On a payload that passes the validation, [create_issue] sends
    exactly one request, with the payload as it is.  An exception of the
    tracker is passed on unchanged; otherwise the result holds the key and the
    id of the created issue, its browse URL [jira_url/browse/key], and the
    summary and the project key of the payload. *)
Theorem create_issue_valid (tr : list Event) (issue_data : gmap string PyVal) :
  _validate_issue_data issue_data = Ok tt →
  snd (create_issue sv st tr issue_data) = (tr ++ [EvJiraCreate issue_data])%list ∧
  (∀ e, jira_api sv (List.length (jira_calls tr)) issue_data = Raise e →
     fst (create_issue sv st tr issue_data) = Raise e) ∧
  (∀ issue, jira_api sv (List.length (jira_calls tr)) issue_data = Ok issue →
     ∃ created summary p,
       fst (create_issue sv st tr issue_data) = Ok created ∧
       issue_data !! "summary" = Some summary ∧
       issue_data !! "project" = Some (PDict p) ∧
       created !! "key" = Some (PStr (issue_key issue)) ∧
       created !! "id" = Some (PStr (issue_id issue)) ∧
       created !! "url" = Some (PStr (jira_url st ++ "/browse/" ++ issue_key issue)) ∧
       created !! "summary" = Some summary ∧
       created !! "project" = p !! "key").
Proof.
  intros Hv.
  destruct (proj1 (validate_issue_data_ok_iff_aux issue_data) Hv)
    as ((p & Hp & [k Hk]) & [s Hs] & _).
  rewrite (create_issue_valid_eq tr _ p Hv Hp). simpl. split; [done |]. split.
  - by intros e ->.
  - intros issue ->. exists (created_issue st issue (get issue_data "summary") (get p "key")),
      s, p.
    unfold created_issue, get. rewrite Hs, Hk. simpl.
    repeat split; by simplify_map_eq.
Qed.

End JiraMore.

(** [validate_issue_data_format_errors] at a payload whose project is a
    string and whose issue type is a string too: the project is reported. *)
Lemma validate_issue_data_format_errors_witness :
  Jira.create_issue Examples.services_ok Examples.env_settings []
    (<["project" := PStr "OPS"]> (<["summary" := PStr "T"]>
       (<["issuetype" := PStr "Story"]> ∅)))
  = (Raise (ValueError "Project must be a dictionary with 'key' field"), []).
Proof.
  refine (proj1 (validate_issue_data_format_errors Examples.services_ok
                   Examples.env_settings [] _ (PStr "OPS") (PStr "T") (PStr "Story") _ _ _) _);
    reflexivity.
Defined.

(** [create_issue_valid] at a well-formed payload and a tracker that
    accepts. *)
Lemma create_issue_valid_witness :
  snd (Jira.create_issue Examples.services_ok Examples.env_settings []
         (<["project" := PDict {["key" := PStr "OPS"]}]> (<["summary" := PStr "T"]>
            (<["issuetype" := PDict {["name" := PStr "Story"]}]> ∅))))
  = [EvJiraCreate (<["project" := PDict {["key" := PStr "OPS"]}]> (<["summary" := PStr "T"]>
       (<["issuetype" := PDict {["name" := PStr "Story"]}]> ∅)))].
Proof.
  refine (proj1 (create_issue_valid Examples.services_ok Examples.env_settings [] _ _)).
  reflexivity.
Defined.

Section SearchFacts.
Import JiraSearch.

(** X20. [search_issues] asks for at most 50 issues unless told otherwise,
    passes an exception of the tracker on unchanged, and otherwise returns
    one entry per issue the tracker returned, in the tracker's order; each
    entry holds the key, id, summary and status of its issue, and as assignee
    the display name, or [None] for an unassigned issue. *)
Theorem search_issues_entries (api : string → Z → Result (list RemoteIssue))
    (jql : string) (max_results : option Z) :
  (∀ e, api jql (default 50%Z max_results) = Raise e →
     search_issues api jql max_results = Raise e) ∧
  (∀ issues, api jql (default 50%Z max_results) = Ok issues →
     ∃ entries,
       search_issues api jql max_results = Ok entries ∧
       List.length entries = List.length issues ∧
       ∀ i issue, issues !! i = Some issue →
         ∃ entry, entries !! i = Some entry ∧
           entry !! "key" = Some (PStr (r_key issue)) ∧
           entry !! "id" = Some (PStr (r_id issue)) ∧
           entry !! "summary" = Some (PStr (r_summary issue)) ∧
           entry !! "status" = Some (PStr (r_status issue)) ∧
           entry !! "assignee" =
             Some (match r_assignee issue with Some name => PStr name | None => PNone end)).
Proof.
  unfold search_issues. split; [by intros e -> |].
  intros issues ->. exists (issue_entry <$> issues).
  split; [done |]. split; [apply length_fmap |].
  intros i issue Hi. exists (issue_entry issue).
  split; [by rewrite list_lookup_fmap, Hi |].
  unfold issue_entry, opt_str. repeat split; by simplify_map_eq.
Qed.

End SearchFacts.

(** [search_issues_entries] at a tracker that returns one unassigned
    issue. *)
Lemma search_issues_entries_witness :
  ∃ entry,
    JiraSearch.search_issues
      (λ _ _, Ok [JiraSearch.mkRemote "OPS-3" "10003" "Fix login" "Open" None])
      "project = OPS" None = Ok [entry] ∧
    entry !! "assignee" = Some PNone.
Proof.
  destruct (search_issues_entries
              (λ _ _, Ok [JiraSearch.mkRemote "OPS-3" "10003" "Fix login" "Open" None])
              "project = OPS" None) as (_ & H).
  destruct (H _ eq_refl) as (entries & Heq & Hlen & Hent).
  destruct (Hent 0%nat _ eq_refl) as (entry & Hl & _ & _ & _ & _ & Ha).
  exists entry. split; [| exact Ha].
  rewrite Heq. destruct entries as [|x [|y l]]; try discriminate.
  simpl in Hl. by injection Hl as ->.
Defined.

(** ** The refinement prompt *)

Section RefineFacts.
Import Prompt Refine.

(** X21. The refinement prompt never fails: for every expanded story and
    every feedback it is the fixed template with the two texts copied in as
    they are (braces in them are not read as fields), the story under
    "Original Story:" and the feedback under "Feedback/Requirements:". *)
Theorem generate_refinement_prompt_verbatim (original_story feedback : string) :
  generate_refinement_prompt original_story feedback =
  Ok ("Please refine the following JIRA story based on the provided feedback:" ++ nl ++ nl
      ++ "Original Story:" ++ nl ++ original_story ++ nl ++ nl
      ++ "Feedback/Requirements:" ++ nl ++ feedback ++ nl ++ nl
      ++ join nl (drop 8 refinement_lines)).
Proof. vm_compute. reflexivity. Qed.

End RefineFacts.

(** ** Loading and validating the configuration file *)

Section ConfigFacts.
Import ConfigFile.
Context (fs : gmap string string) (safe_load : string → Result (option Config)).

(** X22. [load_config] returns a configuration exactly when the file
    exists and the parser gives a document for its text.  A missing file is
    "Configuration file not found: " with the path, whatever the parser would
    do; an empty document is "Empty or invalid YAML file: " with the path; an
    exception of the parser is passed on unchanged. *)
Theorem load_config_outcomes (config_path : string) :
  (∀ config, load_config fs safe_load config_path = Ok config ↔
     ∃ text, fs !! config_path = Some text ∧ safe_load text = Ok (Some config)) ∧
  (fs !! config_path = None →
     load_config fs safe_load config_path =
     Raise (FileNotFoundError ("Configuration file not found: " ++ config_path))) ∧
  (∀ text, fs !! config_path = Some text → safe_load text = Ok None →
     load_config fs safe_load config_path =
     Raise (ValueError ("Empty or invalid YAML file: " ++ config_path))) ∧
  (∀ text e, fs !! config_path = Some text → safe_load text = Raise e →
     load_config fs safe_load config_path = Raise e).
Proof.
  unfold load_config. repeat split.
  - destruct (fs !! config_path) as [text|]; [| done].
    destruct (safe_load text) as [[c|]|e] eqn:Hs; try done.
    intros [= <-]. eauto.
  - intros (text & -> & ->). done.
  - by intros ->.
  - by intros text -> ->.
  - by intros text e -> ->.
Qed.


End ConfigFacts.

(** [load_config_outcomes] at a file system without the file. *)
Lemma load_config_outcomes_witness :
  ConfigFile.load_config ∅ (λ _, Ok None) "stories.yaml" =
  Raise (ConfigFile.FileNotFoundError "Configuration file not found: stories.yaml").
Proof.
  refine (proj1 (proj2 (load_config_outcomes ∅ (λ _, Ok None) "stories.yaml")) _).
  reflexivity.
Defined.


(** ** The vector store client *)

Section ChromaFacts.
Import Chroma Columns.
Context {D : Type} (zero : D).









End ChromaFacts.

Section ChromaClientFacts.
Import Chroma.
Context {D : Type} (zero : D) (s : @Store D).

(** X26. The collection is looked up once and then cached: after an access
    that succeeded, every further access returns the same collection without
    a call to the store.  A collection is created only after the lookup has
    failed, and an access that fails leaves the cache empty. *)
Theorem collection_cached (self : ChromaClient) (tr tr' : list Call) :
  (∀ c self1 tr1, collection s self tr = (Ok c, self1, tr1) →
     collection s self1 tr' = (Ok c, self1, tr')) ∧
  (∀ c self1 tr1, collection s self tr = (Ok c, self1, tr1) →
     tr1 = tr
     ∨ (tr1 = (tr ++ [GetCollection (collection_name self)])%list
        ∧ is_ok (store_get s (collection_name self)) = true)
     ∨ (tr1 = (tr ++ [GetCollection (collection_name self);
                      CreateCollection (collection_name self)])%list
        ∧ is_ok (store_get s (collection_name self)) = false)) ∧
  (∀ e self1 tr1, collection s self tr = (Raise e, self1, tr1) →
     self1 = self ∧ _collection self = None ∧ store_create s (collection_name self) = Raise e).
Proof.
  unfold collection. split; [| split].
  - intros c self1 tr1.
    destruct (_collection self) as [c0|] eqn:Hc.
    { intros [= <- <- <-]. by rewrite Hc. }
    destruct (store_get s (collection_name self)) as [[]|eg].
    { by intros [= <- <- <-]. }
    destruct (store_create s (collection_name self)) as [[]|ec]; [| done].
    by intros [= <- <- <-].
  - intros c self1 tr1.
    destruct (_collection self) as [c0|] eqn:Hc.
    { intros [= <- <- <-]. by left. }
    destruct (store_get s (collection_name self)) as [[]|eg].
    { intros [= <- <- <-]. right; left. done. }
    destruct (store_create s (collection_name self)) as [[]|ec]; [| done].
    intros [= <- <- <-]. right; right. done.
  - intros e self1 tr1.
    destruct (_collection self) as [c0|] eqn:Hc; [done |].
    destruct (store_get s (collection_name self)) as [[]|eg]; [done |].
    destruct (store_create s (collection_name self)) as [[]|ec]; [done |].
    by intros [= <- <- <-].
Qed.

(** X27. [delete_collection] clears the cache only when the store has
    deleted the collection: after a successful delete the next access looks
    the collection up again, and after a failed delete the cached collection
    stays in use. *)
Theorem delete_collection_clears_cache (self : ChromaClient) (tr : list Call) :
  snd (delete_collection s self tr) = (tr ++ [DeleteCollection (collection_name self)])%list ∧
  (store_delete s (collection_name self) = Ok tt →
   _collection (snd (fst (delete_collection s self tr))) = None ∧
   ∀ tr', collection s (snd (fst (delete_collection s self tr))) tr'
          = collection s (mkChroma (collection_name self) None) tr') ∧
  (∀ e, store_delete s (collection_name self) = Raise e →
   fst (delete_collection s self tr) = (Raise e, self)).
Proof.
  unfold delete_collection. split; [| split].
  - by destruct (store_delete s (collection_name self)) as [[]|e0].
  - by intros ->.
  - by intros e ->.
Qed.

End ChromaClientFacts.



(** [collection_cached] at a new client and a store that has the
    collection: the second access makes no call. *)
Lemma collection_cached_witness :
  Chroma.collection
    (Chroma.mkStore (λ _, Ok tt) (λ _, Ok tt)
       (λ _ _ _ _, Ok (Chroma.mkQuery (D:=Z) None None None None)) (λ _, Ok tt))
    (Chroma.mkChroma "jira_stories" (Some "jira_stories")) []
  = (Ok "jira_stories", Chroma.mkChroma "jira_stories" (Some "jira_stories"), []).
Proof.
  apply (proj1 (collection_cached
                  (Chroma.mkStore (λ _, Ok tt) (λ _, Ok tt)
                     (λ _ _ _ _, Ok (Chroma.mkQuery (D:=Z) None None None None))
                     (λ _, Ok tt))
                  (Chroma.new None) [] [])
           "jira_stories" _ [Chroma.GetCollection "jira_stories"]).
  reflexivity.
Defined.

(** [delete_collection_clears_cache] at a store that refuses to delete:
    the cached collection stays. *)
Lemma delete_collection_clears_cache_witness :
  fst (Chroma.delete_collection
         (Chroma.mkStore (λ _, Ok tt) (λ _, Ok tt)
            (λ _ _ _ _, Ok (Chroma.mkQuery (D:=Z) None None None None))
            (λ _, Raise (mkExn "ValueError" "Collection does not exist")))
         (Chroma.mkChroma "jira_stories" (Some "jira_stories")) [])
  = (Raise (mkExn "ValueError" "Collection does not exist"),
     Chroma.mkChroma "jira_stories" (Some "jira_stories")).
Proof.
  apply (proj2 (proj2 (delete_collection_clears_cache
                  (Chroma.mkStore (λ _, Ok tt) (λ _, Ok tt)
                     (λ _ _ _ _, Ok (Chroma.mkQuery (D:=Z) None None None None))
                     (λ _, Raise (mkExn "ValueError" "Collection does not exist")))
                  (Chroma.mkChroma "jira_stories" (Some "jira_stories")) []))).
  reflexivity.
Defined.

(** ** The queue and the configuration's list *)

Section SharedQueueFacts.
Import Agent SharedQueue.

Lemma process_stories_shared_S (k : nat) (s : Shared) :
  process_stories_shared (S k) s = process_stories_shared k (process_story_shared s).
Proof. reflexivity. Qed.

Lemma process_stories_shared_aliased (k : nat) (s : Shared) :
  sh_aliased s = true →
  cfg_stories (config (sh_agent s)) = Some (stories (sh_state s)) →
  sh_aliased (process_stories_shared k s) = true ∧
  cfg_stories (config (sh_agent (process_stories_shared k s)))
    = Some (stories (sh_state (process_stories_shared k s))) ∧
  stories (sh_state (process_stories_shared k s)) = drop k (stories (sh_state s)).
Proof.
  revert s. induction k as [|k IH]; intros s Ha Hc; [by rewrite drop_0 |].
  rewrite process_stories_shared_S.
  destruct (IH (process_story_shared s)) as (H1 & H2 & H3).
  - unfold process_story_shared. by rewrite Ha.
  - unfold process_story_shared. by rewrite Ha.
  - split; [done |]. split; [done |]. rewrite H3.
    unfold process_story_shared. rewrite Ha. simpl. unfold _process_story.
    destruct (stories (sh_state s)) as [|x l] eqn:E; simpl;
      [by rewrite E, !drop_nil | done].
Qed.

(** X28. The queue is the configuration's own list: when the configuration
    has a stories key, then after [_load_stories] and any number of calls of
    [_process_story] the list held by the configuration is the queue of the
    state, the configuration's original list without its first [k] stories.
    A dequeued story is gone from the configuration too. *)
Theorem dequeue_shrinks_configuration (ag : JiraAgent) (st : AgentState)
    (l : list StoryOutline) (k : nat) :
  cfg_stories (config ag) = Some l →
  stories (sh_state (process_stories_shared k (load_stories_shared ag st))) = drop k l ∧
  cfg_stories (config (sh_agent (process_stories_shared k (load_stories_shared ag st))))
    = Some (drop k l).
Proof.
  intros Hl.
  destruct (process_stories_shared_aliased k (load_stories_shared ag st)) as (_ & H2 & H3).
  - unfold load_stories_shared. by rewrite Hl.
  - unfold load_stories_shared, _load_stories. simpl. by rewrite Hl.
  - rewrite H2, H3. unfold load_stories_shared, _load_stories. simpl. by rewrite Hl.
Qed.

End SharedQueueFacts.

(** [dequeue_shrinks_configuration] at the configuration of stories A and
    B, after one dequeue. *)
Lemma dequeue_shrinks_configuration_witness :
  cfg_stories (Agent.config (SharedQueue.sh_agent (SharedQueue.process_stories_shared 1
    (SharedQueue.load_stories_shared
       (Examples.agent_of [Examples.story_a; Examples.story_b] false) Agent.initial_state))))
  = Some [Examples.story_b].
Proof.
  apply (dequeue_shrinks_configuration
           (Examples.agent_of [Examples.story_a; Examples.story_b] false)
           Agent.initial_state [Examples.story_a; Examples.story_b] 1).
  reflexivity.
Defined.
